(** * Kybernetix SDK: the feature-flag manager of [src/provider.ts]

    A shallow embedding of [KybernetixManager] and of the part of the
    JavaScript runtime it touches (property lookup on plain objects,
    truthiness, [fetch], [setInterval] / [clearInterval], [URL]), followed
    by the properties of the manager's cache, of its requests and of its
    polling life cycle. *)

From Stdlib Require Import ZArith NArith String Ascii List DecimalString.
From stdpp Require Import base gmap strings list fin_maps.

Local Open Scope list_scope.
Local Open Scope string_scope.

Set Warnings "-register-all".

(** ** JavaScript values *)

Module Js.

(** The values a parsed JSON body can hold, [undefined], and the members
    every plain object inherits from [Object.prototype] (functions, and the
    prototype itself for [__proto__]), which the manager can only test for
    truthiness or read a property of.  Numbers are the integral ones: the
    manager only ever tests a number for being zero. *)
Inductive value : Type :=
  | Undefined
  | Null
  | Bool (b : bool)
  | Num (n : Z)
  | Str (s : string)
  | Arr (items : list value)
  | Obj (fields : gmap string value)
  | Builtin (name : string).

(** What a rejected promise or a [throw] carries. *)
Inductive error : Type :=
  | Error (message : string)
  | TypeError (message : string)
  | SyntaxError (message : string).

(** [ToBoolean]: objects, arrays and functions are truthy. *)
Definition truthy (v : value) : bool :=
  match v with
  | Undefined | Null => false
  | Bool b => b
  | Num n => negb (Z.eqb n 0)
  | Str s => negb (String.eqb s "")
  | Arr _ | Obj _ | Builtin _ => true
  end.

(** The property names of [Object.prototype]. *)
Definition object_prototype_names : list string :=
  [ "constructor"; "hasOwnProperty"; "isPrototypeOf"; "propertyIsEnumerable";
    "toLocaleString"; "toString"; "valueOf"; "__proto__";
    "__defineGetter__"; "__defineSetter__";
    "__lookupGetter__"; "__lookupSetter__" ].

Definition inherited (name : string) : bool :=
  existsb (String.eqb name) object_prototype_names.

(** [o[name]] on a plain object with own properties [o]: the own property
    if there is one, else what the prototype chain gives. *)
Definition get_field (o : gmap string value) (name : string) : value :=
  match o !! name with
  | Some v => v
  | None => if inherited name then Builtin name else Undefined
  end.

(** [v.name] for a property name that no built-in prototype defines (the
    manager reads [meta] and [enabled] only): reading from [undefined] or
    [null] throws, a plain object answers as [get_field] does, and
    primitives, arrays and functions have no such member. *)
Definition get_prop (v : value) (name : string) : error + value :=
  match v with
  | Undefined =>
      inl (TypeError ("Cannot read properties of undefined (reading '"
                        ++ name ++ "')"))
  | Null =>
      inl (TypeError ("Cannot read properties of null (reading '"
                        ++ name ++ "')"))
  | Obj o => inr (get_field o name)
  | Bool _ | Num _ | Str _ | Arr _ | Builtin _ => inr Undefined
  end.

(** [!s] on a string-or-undefined option of the configuration. *)
Definition configured (s : option string) : bool :=
  match s with
  | Some k => negb (String.eqb k "")
  | None => false
  end.

(** Template-literal rendering of a non-negative integer. *)
Definition show_N (n : N) : string :=
  DecimalString.NilZero.string_of_uint (N.to_uint n).

(** *** The query serializer of [URLSearchParams]
    (application/x-www-form-urlencoded): letters, digits and [*-._] are
    kept, a space becomes [+], every other byte becomes [%XX]. *)
Definition hex_digit (n : N) : ascii :=
  match n with
  | 0 => "0" | 1 => "1" | 2 => "2" | 3 => "3" | 4 => "4" | 5 => "5"
  | 6 => "6" | 7 => "7" | 8 => "8" | 9 => "9" | 10 => "A" | 11 => "B"
  | 12 => "C" | 13 => "D" | 14 => "E" | _ => "F"
  end%N%char.

Definition unreserved (c : ascii) : bool :=
  let n := N_of_ascii c in
  ((48 <=? n) && (n <=? 57) || (65 <=? n) && (n <=? 90)
   || (97 <=? n) && (n <=? 122)
   || (n =? 42) || (n =? 45) || (n =? 46) || (n =? 95))%N.

Definition encode_byte (c : ascii) : string :=
  if unreserved c then String c ""
  else if Ascii.eqb c " "%char then "+"
  else let n := N_of_ascii c in
       String "%"%char (String (hex_digit (n / 16)) (String (hex_digit (n mod 16)) "")).

Fixpoint form_urlencode (s : string) : string :=
  match s with
  | EmptyString => ""
  | String c rest => encode_byte c ++ form_urlencode rest
  end.

End Js.

(** ** The types of [src/types/provider.ts] *)

(** A constructor option: the key left out, or given with a string or with
    [undefined] (the object spread of the constructor tells the two
    apart). *)
Inductive supplied (A : Type) : Type :=
  | Omitted
  | Given (v : option A).
Arguments Omitted {A}.
Arguments Given {A} v.

(** [IManagerOptions], as handed to the constructor. *)
Record IManagerOptions : Type := {
  opts_apiUrl : supplied string;
  opts_publicKey : supplied string;
  opts_privateKey : supplied string
}.

(** [Partial<IManagerOptions>], the merged options the manager keeps. *)
Record Options : Type := {
  apiUrl : option string;
  publicKey : option string;
  privateKey : option string
}.

(** [IDeclareFeatureTime]; a [Date] is its time value in milliseconds. *)
Record IDeclareFeatureTime : Type := {
  start : Z;
  end_ : option Z
}.

(** [IDeclareFeatureOptions]. *)
Record IDeclareFeatureOptions : Type := {
  times : list IDeclareFeatureTime
}.

(** ** The runtime around the manager *)

Inductive Method : Type := GET | POST.

(** The object [createFeature] hands to [JSON.stringify]:
    [{ featureName, privateKey, ...options }]. *)
Record CreateBody : Type := {
  body_featureName : string;
  body_privateKey : string;
  body_times : list IDeclareFeatureTime
}.

(** A call of [fetch]: the URL as passed and the init object. *)
Record Request : Type := {
  url : string;
  method : Method;
  headers : list (string * string);
  body : option CreateBody
}.

(** What the manager reads of a [Response]: [ok], [status], the body text
    [text()] resolves to, and what [json()] resolves to: the members of the
    body when it is a JSON object, nothing when [json()] rejects.  Bodies
    that are JSON but not an object are outside the embedding, as the
    declared type of the cache (a record keyed by feature name) has it. *)
Record Response : Type := {
  ok : bool;
  status : N;
  text : string;
  json : option (gmap string Js.value)
}.

Inductive FetchResult : Type :=
  | Resolves (r : Response)
  | Rejects (e : Js.error).

(** The environment of one operation: [window.location.origin] (nothing
    for an opaque origin, which [new URL] refuses as a base) and the
    answer of the network to each request. *)
Record Env : Type := {
  origin : option string;
  net : Request -> FetchResult
}.

Definition handle : Type := positive.

(** An interval started by [setInterval]: its handle and period (ms).  The
    manager's only callback is [() => { this.getFeatures(); }]. *)
Record Timer : Type := {
  timer_handle : handle;
  timer_period : N
}.

(** The fields of [KybernetixManager]. *)
Record Manager : Type := {
  inited : bool;
  interval : option handle;
  options : Options;
  declaredFeatures : gmap string Js.value
}.

(** The manager together with what it has done to the runtime: the active
    intervals, the next free handle, the [fetch] calls issued so far
    (oldest first) and the rejections of promises nobody awaited. *)
Record World : Type := {
  manager : Manager;
  timers : list Timer;
  next_handle : handle;
  requests : list Request;
  unhandled : list Js.error
}.

(** ** Computations: state passing with exceptions

    An [async] function is run to completion: [Returns] is a resolved
    promise (or a normal return), [Throws] a rejected one (or a [throw]).
    The manager reads and writes its fields at fixed points of each
    function and no other operation is interleaved between the request of
    a function and its response. *)

Inductive outcome (A : Type) : Type :=
  | Returns (a : A)
  | Throws (e : Js.error).
Arguments Returns {A} a.
Arguments Throws {A} e.

Definition M (A : Type) : Type := World -> outcome A * World.

Definition ret {A} (a : A) : M A := fun w => (Returns a, w).

Definition throw {A} (e : Js.error) : M A := fun w => (Throws e, w).

Definition bind {A B} (c : M A) (k : A -> M B) : M B :=
  fun w =>
    match c w with
    | (Returns a, w') => k a w'
    | (Throws e, w') => (Throws e, w')
    end.

Declare Scope js_scope.
Delimit Scope js_scope with js.
Notation "x <- c ;; k" := (bind c (fun x => k))
  (at level 20, c at level 99, k at level 200, only parsing) : js_scope.
Notation "c ;; k" := (bind c (fun _ => k))
  (at level 100, k at level 200, right associativity, only parsing) : js_scope.
Local Open Scope js_scope.

Definition with_manager (m : Manager) (w : World) : World :=
  {| manager := m; timers := timers w; next_handle := next_handle w;
     requests := requests w; unhandled := unhandled w |}.

Definition log_request (rq : Request) (w : World) : World :=
  {| manager := manager w; timers := timers w; next_handle := next_handle w;
     requests := (requests w ++ [rq])%list; unhandled := unhandled w |}.

Definition log_unhandled (e : Js.error) (w : World) : World :=
  {| manager := manager w; timers := timers w; next_handle := next_handle w;
     requests := requests w; unhandled := (unhandled w ++ [e])%list |}.

Definition with_timers (ts : list Timer) (w : World) : World :=
  {| manager := manager w; timers := ts; next_handle := next_handle w;
     requests := requests w; unhandled := unhandled w |}.

Definition get_manager : M Manager := fun w => (Returns (manager w), w).

Definition put_manager (m : Manager) : M unit :=
  fun w => (Returns tt, with_manager m w).

(** Calling an [async] function without awaiting it: the caller goes on
    whatever the promise does, and a rejection is left unhandled. *)
Definition detach {A} (c : M A) : M unit :=
  fun w =>
    match c w with
    | (Returns _, w') => (Returns tt, w')
    | (Throws e, w') => (Returns tt, log_unhandled e w')
    end.

(** [await fetch(url, init)]. *)
Definition fetch (env : Env) (rq : Request) : M Response :=
  fun w =>
    match net env rq with
    | Resolves r => (Returns r, log_request rq w)
    | Rejects e => (Throws e, log_request rq w)
    end.

(** [await response.json()]. *)
Definition response_json (r : Response) : M (gmap string Js.value) :=
  match json r with
  | Some o => ret o
  | None => throw (Js.SyntaxError "Unexpected token in JSON")
  end.

(** [setInterval(callback, period)]: a fresh handle, now active. *)
Definition setInterval (period : N) : M handle :=
  fun w =>
    let h := next_handle w in
    (Returns h,
     {| manager := manager w;
        timers := (timers w ++ [{| timer_handle := h; timer_period := period |}])%list;
        next_handle := Pos.succ h;
        requests := requests w; unhandled := unhandled w |}).

(** [clearInterval(h)]: the interval stops; nothing happens when [h] is not
    active. *)
Definition clearInterval (h : handle) : M unit :=
  fun w =>
    (Returns tt,
     with_timers
       (List.filter (fun t => negb (Pos.eqb (timer_handle t) h)) (timers w))
       w).

(** ** [KybernetixManager] *)

Definition set_inited (b : bool) (m : Manager) : Manager :=
  {| inited := b; interval := interval m; options := options m;
     declaredFeatures := declaredFeatures m |}.

Definition set_interval (h : option handle) (m : Manager) : Manager :=
  {| inited := inited m; interval := h; options := options m;
     declaredFeatures := declaredFeatures m |}.

Definition set_declaredFeatures (c : gmap string Js.value) (m : Manager)
  : Manager :=
  {| inited := inited m; interval := interval m; options := options m;
     declaredFeatures := c |}.

(** The manager [m] had it been configured with base URL [a]. *)
Definition with_apiUrl (a : option string) (m : Manager) : Manager :=
  {| inited := inited m; interval := interval m;
     options := {| apiUrl := a; publicKey := publicKey (options m);
                   privateKey := privateKey (options m) |};
     declaredFeatures := declaredFeatures m |}.

(** [this.field = ...]. *)
Definition assign (f : Manager -> Manager) : M unit :=
  m <- get_manager ;; put_manager (f m).

(** Raising what a property read raised. *)
Definition lift {A} (r : Js.error + A) : M A :=
  match r with
  | inl e => throw e
  | inr a => ret a
  end.

Definition default_apiUrl : string := "https://api.platform.kybernetix.ru".

(** [{ apiUrl: 'https://api.platform.kybernetix.ru', ...opts }]: a key of
    [opts] wins over the default also when its value is [undefined]. *)
Definition merge_options (opts : IManagerOptions) : Options :=
  {| apiUrl := match opts_apiUrl opts with
               | Omitted => Some default_apiUrl
               | Given v => v
               end;
     publicKey := match opts_publicKey opts with
                  | Omitted => None
                  | Given v => v
                  end;
     privateKey := match opts_privateKey opts with
                   | Omitted => None
                   | Given v => v
                   end |}.

(** [new KybernetixManager(opts)]. *)
Definition constructor (opts : IManagerOptions) : Manager :=
  {| inited := false; interval := None; options := merge_options opts;
     declaredFeatures := ∅ |}.

(** A page that has just constructed its manager. *)
Definition new_world (opts : IManagerOptions) : World :=
  {| manager := constructor opts; timers := []; next_handle := 1%positive;
     requests := []; unhandled := [] |}.

Definition feature_path : string := "/v1/sdk/feature/".

Definition json_headers : list (string * string) :=
  [("Content-Type", "application/json")].

(** [new URL(path, base)] for an absolute path: the origin of the base
    followed by the path; an opaque origin is no base. *)
Definition new_URL (path : string) (base : option string) : M string :=
  match base with
  | Some o => ret (o ++ path)
  | None => throw (Js.TypeError "Invalid URL")
  end.

(** [url.searchParams.append(key, v); url.toString()] on a URL without
    query. *)
Definition append_query (u key v : string) : string :=
  u ++ "?" ++ key ++ "=" ++ Js.form_urlencode v.

Definition from_option_string (s : option string) : string :=
  match s with
  | Some k => k
  | None => ""
  end.

(** [private getLocalFeature(featureName)]. *)
Definition getLocalFeature (featureName : string) : M Js.value :=
  m <- get_manager ;; ret (Js.get_field (declaredFeatures m) featureName).

(** [private async getFeatures()]. *)
Definition getFeatures (env : Env) : M unit :=
  m <- get_manager ;;
  if negb (Js.configured (publicKey (options m))) then
    throw (Js.Error
      "Public key is missing. Please provide a valid publicKey in the SDK configuration.")
  else
    u <- new_URL feature_path (origin env) ;;
    let u := append_query u "publicKey"
               (from_option_string (publicKey (options m))) in
    response <- fetch env {| url := u; method := GET;
                             headers := json_headers; body := None |} ;;
    m <- get_manager ;;
    if negb (ok response) && negb (inited m) then
      throw (Js.Error ("Failed to get features: "
                         ++ Js.show_N (status response) ++ " - "
                         ++ text response))
    else
      features <- response_json response ;;
      assign (set_declaredFeatures features).

(** [private async createFeature(featureName, options)]. *)
Definition createFeature (env : Env) (featureName : string)
    (o : IDeclareFeatureOptions) : M Js.value :=
  m <- get_manager ;;
  if negb (Js.configured (privateKey (options m))) then ret Js.Null
  else
    response <- fetch env
      {| url := feature_path; method := POST; headers := json_headers;
         body := Some {| body_featureName := featureName;
                         body_privateKey :=
                           from_option_string (privateKey (options m));
                         body_times := times o |} |} ;;
    if negb (ok response) then
      throw (Js.Error ("Failed to create feature: "
                         ++ Js.show_N (status response) ++ " - "
                         ++ text response))
    else
      created <- response_json response ;; ret (Js.Obj created).

(** [public async init()]. *)
Definition init (env : Env) : M unit :=
  getFeatures env ;;
  h <- setInterval 10000 ;;
  assign (set_interval (Some h)) ;;
  assign (set_inited true).

(** [public destroy()]. *)
Definition destroy : M unit :=
  assign (set_inited false) ;;
  m <- get_manager ;;
  match interval m with
  | Some h => clearInterval h
  | None => ret tt
  end ;;
  assign (set_declaredFeatures ∅).

(** [declareFeature(featureName, options)]. *)
Definition declareFeature (env : Env) (featureName : string)
    (o : IDeclareFeatureOptions) : M unit :=
  feature <- getLocalFeature featureName ;;
  if negb (Js.truthy feature) then detach (createFeature env featureName o)
  else ret tt.

(** [isEnabled(featureName)]. *)
Definition isEnabled (env : Env) (featureName : string) : M Js.value :=
  feature <- getLocalFeature featureName ;;
  if negb (Js.truthy feature) then
    detach (createFeature env featureName {| times := [] |}) ;;
    ret (Js.Bool false)
  else
    meta <- lift (Js.get_prop feature "meta") ;;
    lift (Js.get_prop meta "enabled").

(** ** The passing of time *)

Definition active (h : handle) (w : World) : bool :=
  existsb (fun t => Pos.eqb (timer_handle t) h) (timers w).

(** One period of the interval [h] elapses: its callback runs if the
    interval is still active. *)
Definition fire (env : Env) (h : handle) : M unit :=
  fun w => if active h w then detach (getFeatures env) w else (Returns tt, w).


(** ** The requests of the manager *)

(** The read request for public key [pk] from a page of origin [o]. *)
Definition read_request (o pk : string) : Request :=
  {| url := o ++ "/v1/sdk/feature/?publicKey=" ++ Js.form_urlencode pk;
     method := GET; headers := json_headers; body := None |}.

(** The creation request for a feature under private key [key]. *)
Definition create_request (featureName key : string)
    (o : IDeclareFeatureOptions) : Request :=
  {| url := "/v1/sdk/feature/"; method := POST; headers := json_headers;
     body := Some {| body_featureName := featureName;
                     body_privateKey := key;
                     body_times := times o |} |}.

(** The requests an operation adds to those already issued. *)
Definition issued {A} (c : M A) (w : World) : list Request :=
  drop (length (requests w)) (requests (snd (c w))).

(** Where the specification sends the requests: to the configured base
    URL. *)
Definition spec_read_url (o : Options) : string :=
  from_option_string (apiUrl o) ++ "/v1/sdk/feature/?publicKey="
    ++ from_option_string (publicKey o).

Definition spec_create_url (o : Options) : string :=
  from_option_string (apiUrl o) ++ "/v1/sdk/feature/".

(** ** Histories of a manager *)

(** What can happen to a manager: a call of one of its methods (the private
    ones included, as the test suite calls them) under the network of the
    moment, or the period of an interval elapsing. *)
Inductive call : Type :=
  | Init (env : Env)
  | Destroy
  | DeclareFeature (env : Env) (featureName : string)
      (o : IDeclareFeatureOptions)
  | IsEnabled (env : Env) (featureName : string)
  | CreateFeature (env : Env) (featureName : string)
      (o : IDeclareFeatureOptions)
  | GetFeatures (env : Env)
  | Tick (env : Env) (h : handle).

(** The world after a call, whether it returned or threw. *)
Definition perform (c : call) (w : World) : World :=
  match c with
  | Init env => snd (init env w)
  | Destroy => snd (destroy w)
  | DeclareFeature env featureName o => snd (declareFeature env featureName o w)
  | IsEnabled env featureName => snd (isEnabled env featureName w)
  | CreateFeature env featureName o => snd (createFeature env featureName o w)
  | GetFeatures env => snd (getFeatures env w)
  | Tick env h => snd (fire env h w)
  end.

Fixpoint run (history : list call) (w : World) : World :=
  match history with
  | [] => w
  | c :: rest => run rest (perform c w)
  end.

(** The tail of [init()], once the first refresh has resolved. *)
Definition start_polling (w : World) : World :=
  with_manager
    (set_inited true (set_interval (Some (next_handle w)) (manager w)))
    {| manager := manager w;
       timers := (timers w ++ [{| timer_handle := next_handle w;
                                  timer_period := 10000 |}])%list;
       next_handle := Pos.succ (next_handle w);
       requests := requests w; unhandled := unhandled w |}.

(** What every history keeps true of the intervals and of the flags: the
    active intervals all have the period of [init()], pairwise distinct
    handles, all handed out already; so is the handle the manager holds;
    and [inited] is set only with a public key configured and a handle
    held. *)
Definition consistent (w : World) : Prop :=
  Forall (fun t => timer_period t = 10000%N
                   /\ (timer_handle t < next_handle w)%positive) (timers w)
  /\ NoDup (map timer_handle (timers w))
  /\ (forall h, interval (manager w) = Some h -> (h < next_handle w)%positive)
  /\ (inited (manager w) = true ->
      Js.configured (publicKey (options (manager w))) = true
      /\ interval (manager w) <> None).

(** The two requests a manager configured with [o] can issue: a read under
    its public key from some origin, a creation under its private key. *)
Definition request_of (o : Options) (rq : Request) : Prop :=
  (exists og, rq = read_request og (from_option_string (publicKey o)))
  \/ (exists featureName opt,
        rq = create_request featureName
               (from_option_string (privateKey o)) opt).

(** The characters of a string. *)
Fixpoint chars (s : string) : list ascii :=
  match s with
  | EmptyString => []
  | String c rest => c :: chars rest
  end.

(** ** Scenarios of the test suite and of the specification *)

Module Scenario.

(** [{ publicKey: 'pk' }]: a read-only caller. *)
Definition read_only : IManagerOptions :=
  {| opts_apiUrl := Omitted; opts_publicKey := Given (Some "pk");
     opts_privateKey := Omitted |}.

(** The manager of the test suite's [createManager()]. *)
Definition full : IManagerOptions :=
  {| opts_apiUrl := Given (Some "https://api.platform.kybernetix.ru");
     opts_publicKey := Given (Some "test-public-key");
     opts_privateKey := Given (Some "test-private-key") |}.

(** [{ times: [], enabled: true }], as the service sends a feature. *)
Definition served_feature (enabled : bool) : Js.value :=
  Js.Obj (<["times" := Js.Arr []]> {["enabled" := Js.Bool enabled]}).

(** [{ options: { times: [] }, meta: { enabled } }], as the cache is
    declared to hold a feature. *)
Definition declared_feature (enabled : bool) : Js.value :=
  Js.Obj (<["options" := Js.Obj {["times" := Js.Arr []]}]>
            {["meta" := Js.Obj {["enabled" := Js.Bool enabled]}]}).

(** [{ featureA: { times: [], enabled: true } }]. *)
Definition featureA : gmap string Js.value :=
  {["featureA" := served_feature true]}.

Definition success (features : gmap string Js.value) : Response :=
  {| ok := true; status := 200; text := "(features)"; json := Some features |}.

(** A 500 whose body is no JSON. *)
Definition failure : Response :=
  {| ok := false; status := 500; text := "Get error"; json := None |}.

(** A 500 whose body is the JSON object [{}]. *)
Definition failure_json : Response :=
  {| ok := false; status := 500; text := "{}"; json := Some ∅ |}.

(** The page of the test suite, with a network that answers every request
    with [r]. *)
Definition answering (r : Response) : Env :=
  {| origin := Some "https://test.origin"; net := fun _ => Resolves r |}.

(** A manager of [createManager()] after a first successful [init()]. *)
Definition polling : World :=
  snd (init (answering (success featureA)) (new_world full)).

(** [{ times: [] }]. *)
Definition no_times : IDeclareFeatureOptions := {| times := [] |}.

(** The page of the test suite with its network up. *)
Definition online : Env := answering (success featureA).


(** A manager constructed without a public key. *)
Definition keyless : IManagerOptions :=
  {| opts_apiUrl := Omitted; opts_publicKey := Given None;
     opts_privateKey := Given (Some "test-private-key") |}.

(** The page of the test suite with its network down. *)
Definition offline : Env :=
  {| origin := Some "https://test.origin";
     net := fun _ => Rejects (Js.TypeError "Failed to fetch") |}.

(** A 500 with the body of the test suite. *)
Definition some_error : Response :=
  {| ok := false; status := 500; text := "Some error"; json := None |}.

(** [{ flag: { options: { times: [] }, meta: { enabled: true } } }] in the
    cache of the test suite's manager. *)
Definition flagged : World :=
  with_manager
    (set_declaredFeatures {["flag" := declared_feature true]}
       (constructor full))
    (new_world full).

(** [{ ghost: null }] in the cache of the test suite's manager. *)
Definition nulled : World :=
  with_manager
    (set_declaredFeatures {["ghost" := Js.Null]} (constructor full))
    (new_world full).

End Scenario.

(** * Properties *)

(** ** How each operation runs *)

Lemma read_url (o pk : string) :
  append_query (o ++ feature_path) "publicKey" pk = url (read_request o pk).
Proof.
  unfold append_query, feature_path. cbn [url read_request].
  induction o as [|c o IH]; [reflexivity|].
  change (String c ((o ++ "/v1/sdk/feature/") ++ "?" ++ "publicKey" ++ "="
                      ++ Js.form_urlencode pk)
          = String c (o ++ "/v1/sdk/feature/?publicKey="
                        ++ Js.form_urlencode pk)).
  now rewrite IH.
Qed.

Lemma getFeatures_run (env : Env) (w : World) :
  getFeatures env w =
    let pk := publicKey (options (manager w)) in
    if negb (Js.configured pk) then
      (Throws (Js.Error
         "Public key is missing. Please provide a valid publicKey in the SDK configuration."),
       w)
    else
      match origin env with
      | None => (Throws (Js.TypeError "Invalid URL"), w)
      | Some o =>
          let rq := read_request o (from_option_string pk) in
          match net env rq with
          | Rejects e => (Throws e, log_request rq w)
          | Resolves r =>
              if negb (ok r) && negb (inited (manager w)) then
                (Throws (Js.Error ("Failed to get features: "
                                     ++ Js.show_N (status r) ++ " - "
                                     ++ text r)),
                 log_request rq w)
              else
                match json r with
                | None =>
                    (Throws (Js.SyntaxError "Unexpected token in JSON"),
                     log_request rq w)
                | Some features =>
                    (Returns tt,
                     with_manager
                       (set_declaredFeatures features (manager w))
                       (log_request rq w))
                end
          end
      end.
Proof.
  unfold getFeatures, bind, get_manager. cbn zeta.
  destruct (Js.configured _); cbn [negb]; [|reflexivity].
  destruct (origin env) as [o|]; cbn [new_URL ret throw]; [|reflexivity].
  rewrite read_url. unfold fetch. cbn [url read_request].
  fold (read_request o (from_option_string (publicKey (options (manager w))))).
  destruct (net env _) as [r|e]; [|reflexivity]. cbn [manager log_request].
  destruct (negb (ok r) && negb (inited (manager w))); [reflexivity|].
  unfold response_json. destruct (json r); reflexivity.
Qed.

Lemma createFeature_run (env : Env) (featureName : string)
    (o : IDeclareFeatureOptions) (w : World) :
  createFeature env featureName o w =
    let key := privateKey (options (manager w)) in
    if negb (Js.configured key) then (Returns Js.Null, w)
    else
      let rq := create_request featureName (from_option_string key) o in
      match net env rq with
      | Rejects e => (Throws e, log_request rq w)
      | Resolves r =>
          if negb (ok r) then
            (Throws (Js.Error ("Failed to create feature: "
                                 ++ Js.show_N (status r) ++ " - "
                                 ++ text r)),
             log_request rq w)
          else
            match json r with
            | None =>
                (Throws (Js.SyntaxError "Unexpected token in JSON"),
                 log_request rq w)
            | Some created => (Returns (Js.Obj created), log_request rq w)
            end
      end.
Proof.
  unfold createFeature, bind, get_manager. cbn zeta.
  destruct (Js.configured _); cbn [negb]; [|reflexivity].
  unfold fetch, create_request, feature_path.
  destruct (net env _) as [r|e]; [|reflexivity].
  destruct (ok r); cbn [negb]; [|reflexivity].
  unfold response_json. destruct (json r); reflexivity.
Qed.

(** *** Requests added by an operation *)

Lemma issued_same {A} (c : M A) (w : World) :
  requests (snd (c w)) = requests w -> issued c w = [].
Proof. unfold issued. intros ->. apply drop_all. Qed.

Lemma issued_one {A} (c : M A) (w : World) (rq : Request) :
  requests (snd (c w)) = (requests w ++ [rq])%list -> issued c w = [rq].
Proof. unfold issued. intros ->. apply drop_app_length. Qed.

Lemma issued_getFeatures (env : Env) (w : World) :
  issued (getFeatures env) w =
    let pk := publicKey (options (manager w)) in
    if Js.configured pk then
      match origin env with
      | Some o => [read_request o (from_option_string pk)]
      | None => []
      end
    else [].
Proof.
  cbn zeta. destruct (Js.configured _) eqn:Hpk.
  - destruct (origin env) as [o|] eqn:Ho.
    + apply issued_one. rewrite getFeatures_run. cbn zeta.
      rewrite Hpk, Ho. cbn [negb].
      destruct (net env _) as [r|e]; [|reflexivity].
      destruct (negb (ok r) && negb (inited (manager w))); [reflexivity|].
      destruct (json r); reflexivity.
    + apply issued_same. rewrite getFeatures_run. cbn zeta.
      now rewrite Hpk, Ho.
  - apply issued_same. rewrite getFeatures_run. cbn zeta. now rewrite Hpk.
Qed.

Lemma issued_createFeature (env : Env) (featureName : string)
    (o : IDeclareFeatureOptions) (w : World) :
  issued (createFeature env featureName o) w =
    let key := privateKey (options (manager w)) in
    if Js.configured key then
      [create_request featureName (from_option_string key) o]
    else [].
Proof.
  cbn zeta. destruct (Js.configured _) eqn:Hkey.
  - apply issued_one. rewrite createFeature_run. cbn zeta.
    rewrite Hkey. cbn [negb].
    destruct (net env _) as [r|e]; [|reflexivity].
    destruct (ok r); cbn [negb]; [|reflexivity].
    destruct (json r); reflexivity.
  - apply issued_same. rewrite createFeature_run. cbn zeta. now rewrite Hkey.
Qed.

(** The create operation touches nothing of the manager and no timer. *)
Lemma createFeature_frame (env : Env) (featureName : string)
    (o : IDeclareFeatureOptions) (w : World) :
  manager (snd (createFeature env featureName o w)) = manager w
  /\ timers (snd (createFeature env featureName o w)) = timers w.
Proof.
  rewrite createFeature_run. cbn zeta.
  destruct (Js.configured _); cbn [negb]; [|now split].
  destruct (net env _) as [r|e]; [|now split].
  destruct (ok r); cbn [negb]; [|now split].
  destruct (json r); now split.
Qed.

Lemma configured_Some (k : string) : k <> "" -> Js.configured (Some k) = true.
Proof.
  intros Hk. cbn. destruct (String.eqb_spec k ""); [contradiction|reflexivity].
Qed.

(** ** The refresh *)

(** C4. After a successful refresh, in any phase, the cache is exactly the
    mapping the service returned: the same entry, or none, under every
    name, so nothing cached before survives unless the response has it. *)
Theorem refresh_replaces_cache (env : Env) (w : World) (o pk : string)
    (r : Response) (features : gmap string Js.value) :
  publicKey (options (manager w)) = Some pk ->
  pk <> "" ->
  origin env = Some o ->
  net env (read_request o pk) = Resolves r ->
  ok r = true ->
  json r = Some features ->
  fst (getFeatures env w) = Returns tt
  /\ declaredFeatures (manager (snd (getFeatures env w))) = features
  /\ (forall name : string,
        declaredFeatures (manager (snd (getFeatures env w))) !! name
          = features !! name)
  /\ (forall name : string,
        features !! name = None ->
        declaredFeatures (manager (snd (getFeatures env w))) !! name = None).
Proof.
  intros Hpk Hne Ho Hnet Hok Hjson.
  rewrite getFeatures_run. cbn zeta.
  rewrite Hpk, (configured_Some pk Hne), Ho. cbn [negb from_option_string].
  rewrite Hnet, Hok, Hjson. cbn. auto.
Qed.

Lemma refresh_replaces_cache_witness :
  fst (getFeatures (Scenario.answering (Scenario.success Scenario.featureA))
         (new_world Scenario.read_only)) = Returns tt
  /\ declaredFeatures
       (manager
          (snd (getFeatures
                  (Scenario.answering (Scenario.success Scenario.featureA))
                  (new_world Scenario.read_only))))
     = Scenario.featureA.
Proof.
  pose proof (refresh_replaces_cache
                (Scenario.answering (Scenario.success Scenario.featureA))
                (new_world Scenario.read_only) "https://test.origin" "pk"
                (Scenario.success Scenario.featureA) Scenario.featureA
                eq_refl ltac:(discriminate) eq_refl eq_refl eq_refl eq_refl)
    as (H1 & H2 & _).
  exact (conj H1 H2).
Defined.

(** C5. When the first refresh (not yet initialised) is answered with a
    non-success response, [init()] rejects with the error that carries the
    status and the body text; the only trace it leaves is the read request:
    no interval is started and [inited] stays false. *)
Theorem init_rejects_on_first_failure (env : Env) (w : World) (o pk : string)
    (r : Response) :
  inited (manager w) = false ->
  publicKey (options (manager w)) = Some pk ->
  pk <> "" ->
  origin env = Some o ->
  net env (read_request o pk) = Resolves r ->
  ok r = false ->
  init env w =
    (Throws (Js.Error ("Failed to get features: " ++ Js.show_N (status r)
                         ++ " - " ++ text r)),
     log_request (read_request o pk) w)
  /\ timers (snd (init env w)) = timers w
  /\ interval (manager (snd (init env w))) = interval (manager w)
  /\ inited (manager (snd (init env w))) = false.
Proof.
  intros Hin Hpk Hne Ho Hnet Hok.
  assert (Hrun : init env w =
    (Throws (Js.Error ("Failed to get features: " ++ Js.show_N (status r)
                         ++ " - " ++ text r)),
     log_request (read_request o pk) w)).
  { unfold init, bind at 1. rewrite getFeatures_run. cbn zeta.
    rewrite Hpk, (configured_Some pk Hne), Ho. cbn [negb from_option_string].
    now rewrite Hnet, Hok, Hin. }
  rewrite Hrun. cbn. auto.
Qed.

Lemma init_rejects_on_first_failure_witness :
  init (Scenario.answering Scenario.failure) (new_world Scenario.full) =
    (Throws (Js.Error "Failed to get features: 500 - Get error"),
     log_request (read_request "https://test.origin" "test-public-key")
       (new_world Scenario.full)).
Proof.
  exact (proj1 (init_rejects_on_first_failure
                  (Scenario.answering Scenario.failure)
                  (new_world Scenario.full)
                  "https://test.origin" "test-public-key" Scenario.failure
                  eq_refl eq_refl ltac:(discriminate) eq_refl eq_refl eq_refl)).
Defined.

(** A refresh answered with a non-success response once [inited] is set
    goes on to [response.json()]: the body, if it is JSON, becomes the
    cache; if it is not, the refresh rejects. *)
Lemma getFeatures_inited_failure (env : Env) (w : World) (o pk : string)
    (r : Response) :
  inited (manager w) = true ->
  publicKey (options (manager w)) = Some pk ->
  pk <> "" ->
  origin env = Some o ->
  net env (read_request o pk) = Resolves r ->
  ok r = false ->
  getFeatures env w =
    match json r with
    | Some body =>
        (Returns tt,
         with_manager (set_declaredFeatures body (manager w))
           (log_request (read_request o pk) w))
    | None =>
        (Throws (Js.SyntaxError "Unexpected token in JSON"),
         log_request (read_request o pk) w)
    end.
Proof.
  intros Hin Hpk Hne Ho Hnet Hok.
  rewrite getFeatures_run. cbn zeta.
  rewrite Hpk, (configured_Some pk Hne), Ho. cbn [negb from_option_string].
  now rewrite Hnet, Hok, Hin.
Qed.

(** C2, on the code.  A polling manager that holds [featureA] receives a
    500 whose body is [{}]: the refresh resolves, and the cache is now that
    body, [featureA] gone.  When the body of the 500 is no JSON the refresh
    rejects instead, with the cache as it was. *)
Theorem failed_poll_overwrites_cache :
  inited (manager Scenario.polling) = true
  /\ declaredFeatures (manager Scenario.polling) !! "featureA"
     = Some (Scenario.served_feature true)
  /\ fst (getFeatures (Scenario.answering Scenario.failure_json)
            Scenario.polling) = Returns tt
  /\ declaredFeatures
       (manager (snd (getFeatures (Scenario.answering Scenario.failure_json)
                        Scenario.polling))) = ∅
  /\ fst (getFeatures (Scenario.answering Scenario.failure) Scenario.polling)
     = Throws (Js.SyntaxError "Unexpected token in JSON")
  /\ declaredFeatures
       (manager (snd (getFeatures (Scenario.answering Scenario.failure)
                        Scenario.polling)))
     = declaredFeatures (manager Scenario.polling).
Proof. repeat split; vm_compute; reflexivity. Qed.

(** ** Creation *)

(** C8. Without a private key the create operation resolves to [null] and
    leaves the world as it was: no request is issued, whatever the name and
    the options. *)
Theorem createFeature_without_privateKey (env : Env) (w : World)
    (featureName : string) (o : IDeclareFeatureOptions) :
  privateKey (options (manager w)) = None ->
  createFeature env featureName o w = (Returns Js.Null, w)
  /\ issued (createFeature env featureName o) w = [].
Proof.
  intros Hkey. split.
  - rewrite createFeature_run. cbn zeta. now rewrite Hkey.
  - rewrite issued_createFeature. cbn zeta. now rewrite Hkey.
Qed.

Lemma createFeature_without_privateKey_witness :
  createFeature (Scenario.answering (Scenario.success ∅))
    "noPrivateKey" Scenario.no_times (new_world Scenario.read_only)
  = (Returns Js.Null, new_world Scenario.read_only).
Proof.
  exact (proj1 (createFeature_without_privateKey
                  (Scenario.answering (Scenario.success ∅))
                  (new_world Scenario.read_only)
                  "noPrivateKey" Scenario.no_times eq_refl)).
Defined.

(** An empty private key counts as none. *)
Lemma createFeature_empty_privateKey (env : Env) (w : World)
    (featureName : string) (o : IDeclareFeatureOptions) :
  privateKey (options (manager w)) = Some "" ->
  createFeature env featureName o w = (Returns Js.Null, w).
Proof. intros Hkey. rewrite createFeature_run. cbn zeta. now rewrite Hkey. Qed.

(** ** Where the requests go *)

(** C3, as stated, fails: the manager of the test suite, configured with
    the default base URL, reads from the origin of the page and creates at
    a relative URL. *)
Lemma requests_do_not_use_apiUrl :
  ~ ((forall (env : Env) (w : World) (rq : Request),
        In rq (issued (getFeatures env) w) ->
        url rq = spec_read_url (options (manager w)))
     /\ (forall (env : Env) (w : World) (featureName : string)
                (o : IDeclareFeatureOptions) (rq : Request),
           In rq (issued (createFeature env featureName o) w) ->
           url rq = spec_create_url (options (manager w)))).
Proof.
  intros [Hread _].
  specialize (Hread (Scenario.answering (Scenario.success Scenario.featureA))
                (new_world Scenario.full)
                (read_request "https://test.origin" "test-public-key")).
  assert (Hin : In (read_request "https://test.origin" "test-public-key")
                  (issued (getFeatures
                             (Scenario.answering
                                (Scenario.success Scenario.featureA)))
                     (new_world Scenario.full))).
  { rewrite issued_getFeatures. cbn. now left. }
  specialize (Hread Hin). vm_compute in Hread. discriminate Hread.
Qed.

(** C3, amended.  A refresh issues its one request to
    [{origin}/v1/sdk/feature/?publicKey={publicKey}], the origin being that
    of the page and the key serialized as a query parameter; a creation
    issues its one request to the relative URL [/v1/sdk/feature/].  The
    configured [apiUrl] takes the value
    [https://api.platform.kybernetix.ru] when the key is not supplied, and
    no request depends on it. *)
Theorem request_targets (env : Env) (w : World) (featureName : string)
    (o : IDeclareFeatureOptions) :
  map url (issued (getFeatures env) w) =
    (if Js.configured (publicKey (options (manager w))) then
       match origin env with
       | Some og =>
           [og ++ "/v1/sdk/feature/?publicKey="
               ++ Js.form_urlencode
                    (from_option_string (publicKey (options (manager w))))]
       | None => []
       end
     else [])
  /\ map method (issued (getFeatures env) w)
     = map (fun _ => GET) (issued (getFeatures env) w)
  /\ map url (issued (createFeature env featureName o) w) =
       (if Js.configured (privateKey (options (manager w))) then
          ["/v1/sdk/feature/"]
        else [])
  /\ map method (issued (createFeature env featureName o) w)
     = map (fun _ => POST) (issued (createFeature env featureName o) w)
  /\ (forall a : option string,
        issued (getFeatures env) (with_manager (with_apiUrl a (manager w)) w)
          = issued (getFeatures env) w
        /\ issued (createFeature env featureName o)
             (with_manager (with_apiUrl a (manager w)) w)
           = issued (createFeature env featureName o) w)
  /\ (forall pk key : supplied string,
        apiUrl (merge_options {| opts_apiUrl := Omitted;
                                 opts_publicKey := pk;
                                 opts_privateKey := key |})
        = Some "https://api.platform.kybernetix.ru").
Proof.
  repeat split; rewrite ?issued_getFeatures, ?issued_createFeature;
    cbn zeta; try reflexivity.
  - destruct (Js.configured (publicKey _)); [|reflexivity].
    destruct (origin env); reflexivity.
  - destruct (Js.configured (publicKey _)); [|reflexivity].
    destruct (origin env); reflexivity.
  - destruct (Js.configured (privateKey _)); reflexivity.
  - destruct (Js.configured (privateKey _)); reflexivity.
Qed.

(** ** The polling life cycle *)

Lemma destroy_run (w : World) :
  destroy w =
    (Returns tt,
     with_manager
       (set_declaredFeatures ∅ (set_inited false (manager w)))
       (with_timers
          (match interval (manager w) with
           | Some h =>
               List.filter (fun t => negb (Pos.eqb (timer_handle t) h))
                 (timers w)
           | None => timers w
           end) w)).
Proof.
  unfold destroy, assign, bind, get_manager, put_manager. cbn.
  destruct (interval (manager w)); reflexivity.
Qed.








(** A successful [init()] on a manager that holds no interval: the cache
    is the served mapping, one interval of 10 000 ms is started and kept,
    and [inited] is set. *)
Lemma init_success (env : Env) (w : World) (o pk : string) (r : Response)
    (features : gmap string Js.value) :
  publicKey (options (manager w)) = Some pk ->
  pk <> "" ->
  origin env = Some o ->
  net env (read_request o pk) = Resolves r ->
  ok r = true ->
  json r = Some features ->
  fst (init env w) = Returns tt
  /\ declaredFeatures (manager (snd (init env w))) = features
  /\ inited (manager (snd (init env w))) = true
  /\ interval (manager (snd (init env w))) = Some (next_handle w)
  /\ timers (snd (init env w))
     = (timers w ++ [{| timer_handle := next_handle w;
                        timer_period := 10000 |}])%list.
Proof.
  intros Hpk Hne Ho Hnet Hok Hjson.
  unfold init, bind. rewrite getFeatures_run. cbn zeta.
  rewrite Hpk, (configured_Some pk Hne), Ho. cbn [negb from_option_string].
  rewrite Hnet, Hok, Hjson. repeat split.
Qed.

(** ** Local queries *)

Lemma declareFeature_run (env : Env) (featureName : string)
    (o : IDeclareFeatureOptions) (w : World) :
  declareFeature env featureName o w =
    if Js.truthy (Js.get_field (declaredFeatures (manager w)) featureName)
    then (Returns tt, w)
    else detach (createFeature env featureName o) w.
Proof.
  unfold declareFeature, getLocalFeature, bind, get_manager, ret.
  destruct (Js.truthy _); reflexivity.
Qed.

Lemma isEnabled_run (env : Env) (featureName : string) (w : World) :
  isEnabled env featureName w =
    let feature := Js.get_field (declaredFeatures (manager w)) featureName in
    if Js.truthy feature then
      match Js.get_prop feature "meta" with
      | inl e => (Throws e, w)
      | inr meta =>
          match Js.get_prop meta "enabled" with
          | inl e => (Throws e, w)
          | inr enabled => (Returns enabled, w)
          end
      end
    else
      (Returns (Js.Bool false),
       snd (detach (createFeature env featureName {| times := [] |}) w)).
Proof.
  unfold isEnabled, getLocalFeature, bind, get_manager, ret. cbn zeta.
  destruct (Js.truthy _); cbn [negb].
  - destruct (Js.get_prop _ "meta") as [e|meta]; [reflexivity|]. cbn.
    destruct (Js.get_prop meta "enabled"); reflexivity.
  - unfold detach. destruct (createFeature _ _ _ w) as [[v|e] w']; reflexivity.
Qed.

Lemma detach_frame {A} (c : M A) (w : World) :
  fst (detach c w) = Returns tt
  /\ manager (snd (detach c w)) = manager (snd (c w))
  /\ timers (snd (detach c w)) = timers (snd (c w))
  /\ requests (snd (detach c w)) = requests (snd (c w)).
Proof. unfold detach. destruct (c w) as [[a|e] w']; repeat split. Qed.

Lemma issued_detach {A} (c : M A) (w : World) :
  issued (detach c) w = issued c w.
Proof.
  unfold issued. now destruct (detach_frame c w) as (_ & _ & _ & ->).
Qed.

Lemma get_field_absent (o : gmap string Js.value) (name : string) :
  o !! name = None -> Js.inherited name = false ->
  Js.get_field o name = Js.Undefined.
Proof. intros Hnone Hown. unfold Js.get_field. now rewrite Hnone, Hown. Qed.

Lemma get_field_inherited (o : gmap string Js.value) (name : string) :
  o !! name = None -> Js.inherited name = true ->
  Js.get_field o name = Js.Builtin name.
Proof. intros Hnone Hinh. unfold Js.get_field. now rewrite Hnone, Hinh. Qed.

(** *** The manager is never written by a query or a creation *)

Lemma declareFeature_frame (env : Env) (featureName : string)
    (o : IDeclareFeatureOptions) (w : World) :
  fst (declareFeature env featureName o w) = Returns tt
  /\ manager (snd (declareFeature env featureName o w)) = manager w
  /\ timers (snd (declareFeature env featureName o w)) = timers w.
Proof.
  rewrite declareFeature_run. destruct (Js.truthy _); [repeat split|].
  destruct (detach_frame (createFeature env featureName o) w)
    as (-> & -> & -> & _).
  destruct (createFeature_frame env featureName o w) as [-> ->].
  repeat split.
Qed.

Lemma isEnabled_frame (env : Env) (featureName : string) (w : World) :
  manager (snd (isEnabled env featureName w)) = manager w
  /\ timers (snd (isEnabled env featureName w)) = timers w.
Proof.
  rewrite isEnabled_run. cbn zeta. destruct (Js.truthy _).
  - destruct (Js.get_prop _ "meta") as [e|meta]; [now split|].
    destruct (Js.get_prop meta "enabled"); now split.
  - cbn [snd].
    destruct (detach_frame
                (createFeature env featureName {| times := [] |}) w)
      as (_ & -> & -> & _).
    apply createFeature_frame.
Qed.

(** *** A name the cache knows *)

(** An entry of the shape the cache is declared to hold,
    [{ options, meta: { enabled } }], answers with its [enabled] and
    nothing happens. *)
Lemma isEnabled_declared_shape (env : Env) (w : World) (featureName : string)
    (entry meta : gmap string Js.value) (enabled : Js.value) :
  declaredFeatures (manager w) !! featureName = Some (Js.Obj entry) ->
  entry !! "meta" = Some (Js.Obj meta) ->
  meta !! "enabled" = Some enabled ->
  isEnabled env featureName w = (Returns enabled, w).
Proof.
  intros Hentry Hmeta Henabled. rewrite isEnabled_run. cbn zeta.
  unfold Js.get_field. rewrite Hentry. cbn.
  unfold Js.get_field. rewrite Hmeta. cbn.
  unfold Js.get_field. now rewrite Henabled.
Qed.

(** An entry of the shape the service sends, [{ times, enabled }], has no
    [meta]: the query throws. *)
Lemma isEnabled_served_shape (env : Env) (w : World) (featureName : string)
    (entry : gmap string Js.value) :
  declaredFeatures (manager w) !! featureName = Some (Js.Obj entry) ->
  entry !! "meta" = None ->
  isEnabled env featureName w =
    (Throws (Js.TypeError
               "Cannot read properties of undefined (reading 'enabled')"),
     w).
Proof.
  intros Hentry Hmeta. rewrite isEnabled_run. cbn zeta.
  unfold Js.get_field. rewrite Hentry. cbn.
  unfold Js.get_field. now rewrite Hmeta.
Qed.

(** C1, on the code.  [init()] succeeds against a service that returns
    [{ featureA: { times: [], enabled: true } }] and the cache holds that
    entry, [enabled: true] included; [isEnabled("featureA")] then throws,
    because it reads [enabled] from the entry's [meta], which the entry
    does not have. *)
Theorem isEnabled_after_init_throws :
  fst (init Scenario.online (new_world Scenario.read_only)) = Returns tt
  /\ declaredFeatures
       (manager (snd (init Scenario.online (new_world Scenario.read_only))))
     = {["featureA" := Scenario.served_feature true]}
  /\ isEnabled Scenario.online "featureA"
       (snd (init Scenario.online (new_world Scenario.read_only)))
     = (Throws (Js.TypeError
                  "Cannot read properties of undefined (reading 'enabled')"),
        snd (init Scenario.online (new_world Scenario.read_only))).
Proof. repeat split; vm_compute; reflexivity. Qed.

(** *** A name the cache does not know *)

(** For a name that is neither in the cache nor a member every object
    inherits, [declareFeature] calls the create operation once, with the
    name and the options given, and waits for nothing. *)
Lemma declareFeature_absent (env : Env) (w : World) (featureName : string)
    (o : IDeclareFeatureOptions) :
  declaredFeatures (manager w) !! featureName = None ->
  Js.inherited featureName = false ->
  declareFeature env featureName o w
    = detach (createFeature env featureName o) w
  /\ issued (declareFeature env featureName o) w =
       (if Js.configured (privateKey (options (manager w))) then
          [create_request featureName
             (from_option_string (privateKey (options (manager w)))) o]
        else []).
Proof.
  intros Hnone Hown.
  assert (Hrun : declareFeature env featureName o w
                 = detach (createFeature env featureName o) w).
  { rewrite declareFeature_run, (get_field_absent _ _ Hnone Hown).
    reflexivity. }
  split; [exact Hrun|].
  unfold issued at 1. rewrite Hrun.
  fold (issued (detach (createFeature env featureName o)) w).
  now rewrite issued_detach, issued_createFeature.
Qed.

(** A name the cache holds with a truthy entry: [declareFeature] does
    nothing at all. *)
Lemma declareFeature_present (env : Env) (w : World) (featureName : string)
    (o : IDeclareFeatureOptions) (entry : Js.value) :
  declaredFeatures (manager w) !! featureName = Some entry ->
  Js.truthy entry = true ->
  declareFeature env featureName o w = (Returns tt, w)
  /\ issued (declareFeature env featureName o) w = [].
Proof.
  intros Hentry Htruthy.
  assert (Hrun : declareFeature env featureName o w = (Returns tt, w)).
  { rewrite declareFeature_run. unfold Js.get_field.
    now rewrite Hentry, Htruthy. }
  split; [exact Hrun|]. apply issued_same. now rewrite Hrun.
Qed.

(** For a name that is neither in the cache nor inherited, [isEnabled]
    answers [false] and calls the create operation once with
    [{ times: [] }]; the answer is [false] whatever the creation does. *)
Lemma isEnabled_absent (env : Env) (w : World) (featureName : string) :
  declaredFeatures (manager w) !! featureName = None ->
  Js.inherited featureName = false ->
  isEnabled env featureName w
    = (Returns (Js.Bool false),
       snd (detach (createFeature env featureName {| times := [] |}) w))
  /\ issued (isEnabled env featureName) w =
       (if Js.configured (privateKey (options (manager w))) then
          [create_request featureName
             (from_option_string (privateKey (options (manager w))))
             {| times := [] |}]
        else []).
Proof.
  intros Hnone Hown.
  assert (Hrun : isEnabled env featureName w
                 = (Returns (Js.Bool false),
                    snd (detach (createFeature env featureName
                                   {| times := [] |}) w))).
  { rewrite isEnabled_run. cbn zeta.
    rewrite (get_field_absent _ _ Hnone Hown). reflexivity. }
  split; [exact Hrun|].
  unfold issued at 1. rewrite Hrun. cbn [snd].
  fold (issued (detach (createFeature env featureName {| times := [] |})) w).
  now rewrite issued_detach, issued_createFeature.
Qed.

(** *** A name every object inherits *)

(** A name the cache does not hold but every plain object inherits is
    found by the lookup: [declareFeature] does nothing. *)
Lemma declareFeature_inherited (env : Env) (w : World) (featureName : string)
    (o : IDeclareFeatureOptions) :
  declaredFeatures (manager w) !! featureName = None ->
  Js.inherited featureName = true ->
  declareFeature env featureName o w = (Returns tt, w).
Proof.
  intros Hnone Hinh.
  now rewrite declareFeature_run, (get_field_inherited _ _ Hnone Hinh).
Qed.

(** ... and [isEnabled] throws on the member it finds. *)
Lemma isEnabled_inherited (env : Env) (w : World) (featureName : string) :
  declaredFeatures (manager w) !! featureName = None ->
  Js.inherited featureName = true ->
  isEnabled env featureName w =
    (Throws (Js.TypeError
               "Cannot read properties of undefined (reading 'enabled')"),
     w).
Proof.
  intros Hnone Hinh. rewrite isEnabled_run. cbn zeta.
  now rewrite (get_field_inherited _ _ Hnone Hinh).
Qed.

(** C6, on the code.  The manager of the test suite holds a private key
    and an empty cache; [declareFeature("constructor", { times: [] })]
    returns without calling the create operation: no request is issued and
    the world is as before. *)
Theorem declareFeature_constructor_creates_nothing :
  declaredFeatures (manager (new_world Scenario.full)) !! "constructor" = None
  /\ Js.configured (privateKey (options (manager (new_world Scenario.full))))
     = true
  /\ declareFeature Scenario.online "constructor" Scenario.no_times
       (new_world Scenario.full)
     = (Returns tt, new_world Scenario.full)
  /\ issued (declareFeature Scenario.online "constructor" Scenario.no_times)
       (new_world Scenario.full) = [].
Proof. repeat split; vm_compute; reflexivity. Qed.

(** C7, on the code.  On the same manager [isEnabled("constructor")] does
    not answer [false]: it throws, and it calls no creation. *)
Theorem isEnabled_constructor_throws :
  declaredFeatures (manager (new_world Scenario.full)) !! "constructor" = None
  /\ isEnabled Scenario.online "constructor" (new_world Scenario.full)
     = (Throws (Js.TypeError
                  "Cannot read properties of undefined (reading 'enabled')"),
        new_world Scenario.full)
  /\ issued (isEnabled Scenario.online "constructor")
       (new_world Scenario.full) = [].
Proof. repeat split; vm_compute; reflexivity. Qed.

(** *** Repeated calls *)

Lemma requests_createFeature (env : Env) (featureName : string)
    (o : IDeclareFeatureOptions) (w : World) :
  requests (snd (createFeature env featureName o w)) =
    (requests w ++
       (if Js.configured (privateKey (options (manager w))) then
          [create_request featureName
             (from_option_string (privateKey (options (manager w)))) o]
        else []))%list.
Proof.
  rewrite createFeature_run. cbn zeta.
  destruct (Js.configured _); cbn [negb snd].
  - destruct (net env _) as [r|e]; [|reflexivity].
    destruct (ok r); cbn [negb]; [|reflexivity].
    destruct (json r); reflexivity.
  - symmetry. apply app_nil_r.
Qed.

Lemma requests_isEnabled_absent (env : Env) (w : World)
    (featureName : string) :
  declaredFeatures (manager w) !! featureName = None ->
  Js.inherited featureName = false ->
  requests (snd (isEnabled env featureName w)) =
    (requests w ++
       (if Js.configured (privateKey (options (manager w))) then
          [create_request featureName
             (from_option_string (privateKey (options (manager w))))
             {| times := [] |}]
        else []))%list.
Proof.
  intros Hnone Hown.
  destruct (isEnabled_absent env w featureName Hnone Hown) as [-> _].
  cbn [snd].
  destruct (detach_frame (createFeature env featureName {| times := [] |}) w)
    as (_ & _ & _ & ->).
  apply requests_createFeature.
Qed.

(** While a name stays out of the cache (and is no inherited member), a
    second [isEnabled] creates again, whatever became of the first
    creation. *)
Lemma isEnabled_twice_creates_twice (env1 env2 : Env) (w : World)
    (featureName : string) :
  declaredFeatures (manager w) !! featureName = None ->
  Js.inherited featureName = false ->
  issued (isEnabled env1 featureName ;; isEnabled env2 featureName) w =
    (if Js.configured (privateKey (options (manager w))) then
       [create_request featureName
          (from_option_string (privateKey (options (manager w))))
          {| times := [] |};
        create_request featureName
          (from_option_string (privateKey (options (manager w))))
          {| times := [] |}]
     else []).
Proof.
  intros Hnone Hown. unfold issued, bind.
  pose proof (requests_isEnabled_absent env1 w featureName Hnone Hown) as H1.
  destruct (isEnabled_frame env1 featureName w) as [Hm _].
  destruct (isEnabled_absent env1 w featureName Hnone Hown) as [Hrun _].
  rewrite Hrun in *. cbn [snd] in *.
  set (w1 := snd (detach (createFeature env1 featureName {| times := [] |}) w))
    in *.
  assert (Hnone1 : declaredFeatures (manager w1) !! featureName = None)
    by now rewrite Hm.
  rewrite (requests_isEnabled_absent env2 w1 featureName Hnone1 Hown).
  rewrite H1, Hm.
  destruct (Js.configured _).
  - rewrite <- app_assoc. apply drop_app_length.
  - rewrite !app_nil_r. apply drop_all.
Qed.

(** C10, on the code.  On the manager of the test suite, with its private
    key and an empty cache, ["constructor"] stays absent from the cache
    while [declareFeature] is called twice and [isEnabled] once for it, and
    no creation request is issued; for ["featureB"] two calls of
    [isEnabled] issue two. *)
Theorem repeated_calls_for_constructor_create_nothing :
  issued (declareFeature Scenario.online "constructor" Scenario.no_times ;;
          declareFeature Scenario.online "constructor" Scenario.no_times ;;
          isEnabled Scenario.online "constructor")
    (new_world Scenario.full) = []
  /\ declaredFeatures
       (manager
          (snd ((declareFeature Scenario.online "constructor"
                   Scenario.no_times ;;
                 declareFeature Scenario.online "constructor"
                   Scenario.no_times ;;
                 isEnabled Scenario.online "constructor")
                  (new_world Scenario.full)))) !! "constructor" = None
  /\ issued (isEnabled Scenario.online "featureB" ;;
             isEnabled Scenario.online "featureB")
       (new_world Scenario.full)
     = [create_request "featureB" "test-private-key" Scenario.no_times;
        create_request "featureB" "test-private-key" Scenario.no_times].
Proof. repeat split; vm_compute; reflexivity. Qed.

(** ** Helpers of the runtime *)

Example show_N_500 : Js.show_N 500 = "500".
Proof. reflexivity. Qed.

Example form_urlencode_plain :
  Js.form_urlencode "test-public-key" = "test-public-key".
Proof. reflexivity. Qed.

Example form_urlencode_reserved :
  Js.form_urlencode "a b&c=d/e" = "a+b%26c%3Dd%2Fe".
Proof. reflexivity. Qed.

Example truthy_values :
  Js.truthy (Scenario.served_feature false) = true
  /\ Js.truthy (Js.Builtin "constructor") = true
  /\ Js.truthy Js.Undefined = false
  /\ Js.truthy (Js.Str "") = false.
Proof. repeat split. Qed.

(** The scenario of the test suite: a cache entry of the declared shape
    answers with its flag. *)
Example isEnabled_flag :
  isEnabled Scenario.online "flag"
    (with_manager
       (set_declaredFeatures {["flag" := Scenario.declared_feature true]}
          (constructor Scenario.full))
       (new_world Scenario.full))
  = (Returns (Js.Bool true),
     with_manager
       (set_declaredFeatures {["flag" := Scenario.declared_feature true]}
          (constructor Scenario.full))
       (new_world Scenario.full)).
Proof. vm_compute. reflexivity. Qed.

(** * Further properties *)

(** ** What a refresh leaves alone *)

(** A refresh writes the cache and logs its request; a refresh that rejects
    does not even write the cache. *)
Lemma getFeatures_fields (env : Env) (w : World) :
  timers (snd (getFeatures env w)) = timers w
  /\ next_handle (snd (getFeatures env w)) = next_handle w
  /\ unhandled (snd (getFeatures env w)) = unhandled w
  /\ inited (manager (snd (getFeatures env w))) = inited (manager w)
  /\ interval (manager (snd (getFeatures env w))) = interval (manager w)
  /\ options (manager (snd (getFeatures env w))) = options (manager w)
  /\ (forall e, fst (getFeatures env w) = Throws e ->
                manager (snd (getFeatures env w)) = manager w).
Proof.
  rewrite getFeatures_run. cbn zeta.
  destruct (Js.configured _); cbn [negb]; [|repeat split].
  destruct (origin env) as [o|]; [|repeat split].
  destruct (net env _) as [r|e]; [|repeat split].
  destruct (negb (ok r) && negb (inited (manager w))); [repeat split|].
  destruct (json r); repeat split. intros e He. discriminate He.
Qed.

Lemma init_cases (env : Env) (w : World) :
  init env w =
    match getFeatures env w with
    | (Returns _, w1) => (Returns tt, start_polling w1)
    | (Throws e, w1) => (Throws e, w1)
    end.
Proof.
  unfold init, bind. destruct (getFeatures env w) as [[[]|e] w1]; reflexivity.
Qed.

Lemma fire_cases (env : Env) (h : handle) (w : World) :
  fire env h w =
    if active h w then
      match getFeatures env w with
      | (Returns _, w1) => (Returns tt, w1)
      | (Throws e, w1) => (Returns tt, log_unhandled e w1)
      end
    else (Returns tt, w).
Proof. unfold fire, detach. destruct (active h w); reflexivity. Qed.

(** ** Errors of the refresh and of [init()] *)

(** X1. Without a public key (none, or an empty one) the refresh rejects
    with the configuration error before anything else, initialised or not,
    and so does [init()]: no request is issued, no interval started and the
    world is as it was. *)
Theorem refresh_without_publicKey (env : Env) (w : World) :
  Js.configured (publicKey (options (manager w))) = false ->
  getFeatures env w =
    (Throws (Js.Error
       "Public key is missing. Please provide a valid publicKey in the SDK configuration."),
     w)
  /\ init env w =
       (Throws (Js.Error
          "Public key is missing. Please provide a valid publicKey in the SDK configuration."),
        w).
Proof.
  intros Hpk.
  assert (Hrun : getFeatures env w =
    (Throws (Js.Error
       "Public key is missing. Please provide a valid publicKey in the SDK configuration."),
     w)).
  { rewrite getFeatures_run. cbn zeta. now rewrite Hpk. }
  split; [exact Hrun|]. now rewrite init_cases, Hrun.
Qed.

Lemma refresh_without_publicKey_witness :
  init Scenario.online (new_world Scenario.keyless) =
    (Throws (Js.Error
       "Public key is missing. Please provide a valid publicKey in the SDK configuration."),
     new_world Scenario.keyless).
Proof.
  exact (proj2 (refresh_without_publicKey Scenario.online
                  (new_world Scenario.keyless) eq_refl)).
Defined.

(** X2. [init()] is all or nothing for the manager: whenever it rejects,
    for a missing key, an opaque origin, a network failure, a non-success
    answer or a body that is no JSON, the manager's fields are exactly as
    before ([inited] false or not, no new handle, the cache untouched) and
    no interval has been started. *)
Theorem init_rejection_changes_nothing (env : Env) (w : World) (e : Js.error) :
  fst (init env w) = Throws e ->
  manager (snd (init env w)) = manager w
  /\ timers (snd (init env w)) = timers w
  /\ next_handle (snd (init env w)) = next_handle w
  /\ fst (getFeatures env w) = Throws e.
Proof.
  rewrite init_cases.
  destruct (getFeatures_fields env w) as (Ht & Hn & _ & _ & _ & _ & Hm).
  destruct (getFeatures env w) as [[[]|e'] w1]; cbn in *; [discriminate|].
  intros [= ->]. repeat split; eauto.
Qed.

Lemma init_rejection_changes_nothing_witness :
  manager (snd (init Scenario.offline (new_world Scenario.full)))
    = manager (new_world Scenario.full)
  /\ timers (snd (init Scenario.offline (new_world Scenario.full))) = [].
Proof.
  pose proof (init_rejection_changes_nothing Scenario.offline
                (new_world Scenario.full) (Js.TypeError "Failed to fetch")
                eq_refl) as (H1 & H2 & _).
  exact (conj H1 H2).
Defined.

(** X3. Whenever [init()] resolves, [inited] is set, exactly one interval
    of 10 000 ms has been added to those already running (none is stopped
    or replaced), the manager holds its fresh handle, and the configuration
    is as before. *)
Theorem init_resolution_starts_polling (env : Env) (w : World) :
  fst (init env w) = Returns tt ->
  inited (manager (snd (init env w))) = true
  /\ interval (manager (snd (init env w))) = Some (next_handle w)
  /\ timers (snd (init env w))
     = (timers w ++ [{| timer_handle := next_handle w;
                        timer_period := 10000 |}])%list
  /\ next_handle (snd (init env w)) = Pos.succ (next_handle w)
  /\ options (manager (snd (init env w))) = options (manager w)
  /\ declaredFeatures (manager (snd (init env w)))
     = declaredFeatures (manager (snd (getFeatures env w))).
Proof.
  rewrite init_cases.
  destruct (getFeatures_fields env w) as (Ht & Hn & _ & _ & _ & Ho & _).
  destruct (getFeatures env w) as [[[]|e'] w1]; cbn in *; [|discriminate].
  intros _. rewrite Ht, Hn, Ho. repeat split.
Qed.

Lemma init_resolution_starts_polling_witness :
  inited (manager (snd (init Scenario.online (new_world Scenario.full)))) = true
  /\ interval (manager (snd (init Scenario.online (new_world Scenario.full))))
     = Some 1%positive
  /\ timers (snd (init Scenario.online (new_world Scenario.full)))
     = [{| timer_handle := 1%positive; timer_period := 10000 |}].
Proof.
  pose proof (init_resolution_starts_polling Scenario.online
                (new_world Scenario.full) eq_refl) as (H1 & H2 & H3 & _).
  exact (conj H1 (conj H2 H3)).
Defined.

(** ** The create operation with a private key *)



(** X5. With a private key configured, a creation answered with a success
    response resolves with the parsed body, after exactly the one creation
    request; the cache does not learn the feature. *)
Theorem createFeature_success (env : Env) (w : World) (featureName key : string)
    (o : IDeclareFeatureOptions) (r : Response)
    (created : gmap string Js.value) :
  privateKey (options (manager w)) = Some key ->
  key <> "" ->
  net env (create_request featureName key o) = Resolves r ->
  ok r = true ->
  json r = Some created ->
  createFeature env featureName o w =
    (Returns (Js.Obj created),
     log_request (create_request featureName key o) w)
  /\ declaredFeatures (manager (snd (createFeature env featureName o w)))
     = declaredFeatures (manager w).
Proof.
  intros Hkey Hne Hnet Hok Hjson.
  assert (Hrun : createFeature env featureName o w =
    (Returns (Js.Obj created),
     log_request (create_request featureName key o) w)).
  { rewrite createFeature_run. cbn zeta.
    rewrite Hkey, (configured_Some key Hne). cbn [negb from_option_string].
    now rewrite Hnet, Hok, Hjson. }
  split; [exact Hrun|]. now rewrite Hrun.
Qed.

Lemma createFeature_success_witness :
  createFeature (Scenario.answering (Scenario.success ∅)) "testFeature"
    Scenario.no_times (new_world Scenario.full)
  = (Returns (Js.Obj ∅),
     log_request
       (create_request "testFeature" "test-private-key" Scenario.no_times)
       (new_world Scenario.full)).
Proof.
  exact (proj1 (createFeature_success
                  (Scenario.answering (Scenario.success ∅))
                  (new_world Scenario.full) "testFeature" "test-private-key"
                  Scenario.no_times (Scenario.success ∅) ∅
                  eq_refl ltac:(discriminate) eq_refl eq_refl eq_refl)).
Defined.

Lemma createFeature_unhandled (env : Env) (featureName : string)
    (o : IDeclareFeatureOptions) (w : World) :
  unhandled (snd (createFeature env featureName o w)) = unhandled w
  /\ next_handle (snd (createFeature env featureName o w)) = next_handle w.
Proof.
  rewrite createFeature_run. cbn zeta.
  destruct (Js.configured _); cbn [negb]; [|now split].
  destruct (net env _) as [r|e]; [|now split].
  destruct (ok r); cbn [negb]; [|now split].
  destruct (json r); now split.
Qed.

(** X6. A creation that rejects is not seen by the caller that triggered
    it: for a name the lookup does not find, [declareFeature] still returns
    and [isEnabled] still answers [false], and the error is left behind as
    an unhandled rejection. *)
Theorem creation_failure_is_unhandled (env : Env) (w : World)
    (featureName : string) (o : IDeclareFeatureOptions) (e : Js.error) :
  declaredFeatures (manager w) !! featureName = None ->
  Js.inherited featureName = false ->
  fst (createFeature env featureName o w) = Throws e ->
  declareFeature env featureName o w
    = (Returns tt, log_unhandled e (snd (createFeature env featureName o w)))
  /\ unhandled (snd (declareFeature env featureName o w))
     = (unhandled w ++ [e])%list
  /\ (times o = [] ->
      isEnabled env featureName w
        = (Returns (Js.Bool false),
           log_unhandled e (snd (createFeature env featureName o w)))).
Proof.
  intros Hnone Hown He.
  destruct (declareFeature_absent env w featureName o Hnone Hown) as [Hd _].
  destruct (createFeature_unhandled env featureName o w) as [Hu _].
  assert (Hdetach : detach (createFeature env featureName o) w
                    = (Returns tt,
                       log_unhandled e
                         (snd (createFeature env featureName o w)))).
  { unfold detach.
    destruct (createFeature env featureName o w) as [[v|e'] w1]; cbn in *;
      [discriminate|congruence]. }
  split; [now rewrite Hd|]. split.
  - rewrite Hd, Hdetach. cbn [snd unhandled log_unhandled]. now rewrite Hu.
  - intros Htimes. destruct o as [ts]. cbn in Htimes. subst ts.
    destruct (isEnabled_absent env w featureName Hnone Hown) as [-> _].
    now rewrite Hdetach.
Qed.

Lemma creation_failure_is_unhandled_witness :
  unhandled (snd (declareFeature (Scenario.answering Scenario.some_error)
                    "brokenFeature" Scenario.no_times
                    (new_world Scenario.full)))
  = [Js.Error "Failed to create feature: 500 - Some error"].
Proof.
  pose proof (creation_failure_is_unhandled
                (Scenario.answering Scenario.some_error)
                (new_world Scenario.full) "brokenFeature" Scenario.no_times
                (Js.Error "Failed to create feature: 500 - Some error")
                eq_refl eq_refl eq_refl) as (_ & H & _).
  exact H.
Defined.

(** ** Polling *)

Lemma requests_getFeatures (env : Env) (w : World) :
  requests (snd (getFeatures env w)) =
    (requests w ++ issued (getFeatures env) w)%list.
Proof.
  rewrite issued_getFeatures, getFeatures_run. cbn zeta.
  destruct (Js.configured _); cbn [negb snd]; [|now rewrite app_nil_r].
  destruct (origin env) as [o|]; cbn [snd]; [|now rewrite app_nil_r].
  destruct (net env _) as [r|e]; [|reflexivity].
  destruct (negb (ok r) && negb (inited (manager w))); [reflexivity|].
  destruct (json r); reflexivity.
Qed.

(** X7. When the period of an active interval elapses, exactly one read
    request is issued, whatever the network answers, and the callback never
    throws; the intervals, the held handle and [inited] are as before, so a
    failing poll does not stop the polling. *)
Theorem poll_issues_one_read (env : Env) (w : World) (h : handle)
    (o pk : string) :
  active h w = true ->
  publicKey (options (manager w)) = Some pk ->
  pk <> "" ->
  origin env = Some o ->
  fst (fire env h w) = Returns tt
  /\ issued (fire env h) w = [read_request o pk]
  /\ timers (snd (fire env h w)) = timers w
  /\ active h (snd (fire env h w)) = true
  /\ inited (manager (snd (fire env h w))) = inited (manager w)
  /\ interval (manager (snd (fire env h w))) = interval (manager w).
Proof.
  intros Hact Hpk Hne Ho.
  pose proof (requests_getFeatures env w) as Hrq.
  rewrite issued_getFeatures in Hrq. cbn zeta in Hrq.
  rewrite Hpk, (configured_Some pk Hne), Ho in Hrq.
  cbn [from_option_string] in Hrq.
  destruct (getFeatures_fields env w) as (Ht & _ & _ & Hi & Hv & _ & _).
  unfold issued, active in *. rewrite fire_cases. unfold active. rewrite Hact.
  destruct (getFeatures env w) as [[[]|e] w1]; cbn in *;
    rewrite Hrq, Ht, Hi, Hv, Hact; repeat split; apply drop_app_length.
Qed.

Lemma poll_issues_one_read_witness :
  issued (fire Scenario.offline 1%positive) Scenario.polling
  = [read_request "https://test.origin" "test-public-key"].
Proof.
  pose proof (poll_issues_one_read Scenario.offline Scenario.polling
                1%positive "https://test.origin" "test-public-key"
                eq_refl eq_refl ltac:(discriminate) eq_refl) as (_ & H & _).
  exact H.
Defined.

(** X8. A poll answered with a success response whose body is a mapping
    replaces the cache by that mapping and leaves no unhandled rejection
    behind. *)
Theorem successful_poll_replaces_cache (env : Env) (w : World) (h : handle)
    (o pk : string) (r : Response) (features : gmap string Js.value) :
  active h w = true ->
  publicKey (options (manager w)) = Some pk ->
  pk <> "" ->
  origin env = Some o ->
  net env (read_request o pk) = Resolves r ->
  ok r = true ->
  json r = Some features ->
  declaredFeatures (manager (snd (fire env h w))) = features
  /\ unhandled (snd (fire env h w)) = unhandled w.
Proof.
  intros Hact Hpk Hne Ho Hnet Hok Hjson.
  rewrite fire_cases, Hact, getFeatures_run. cbn zeta.
  rewrite Hpk, (configured_Some pk Hne), Ho. cbn [negb from_option_string].
  rewrite Hnet, Hok, Hjson. now split.
Qed.

Lemma successful_poll_replaces_cache_witness :
  declaredFeatures
    (manager (snd (fire (Scenario.answering (Scenario.success ∅)) 1%positive
                     Scenario.polling))) = ∅.
Proof.
  exact (proj1 (successful_poll_replaces_cache
                  (Scenario.answering (Scenario.success ∅)) Scenario.polling
                  1%positive "https://test.origin" "test-public-key"
                  (Scenario.success ∅) ∅
                  eq_refl eq_refl ltac:(discriminate) eq_refl eq_refl eq_refl
                  eq_refl)).
Defined.

(** X9. A poll whose refresh rejects (the network is down, the body is no
    JSON) leaves the manager, cache included, exactly as it was and the
    interval running; the error ends up as an unhandled rejection. *)
Theorem rejected_poll_keeps_cache (env : Env) (w : World) (h : handle)
    (e : Js.error) :
  active h w = true ->
  fst (getFeatures env w) = Throws e ->
  fst (fire env h w) = Returns tt
  /\ manager (snd (fire env h w)) = manager w
  /\ timers (snd (fire env h w)) = timers w
  /\ unhandled (snd (fire env h w)) = (unhandled w ++ [e])%list.
Proof.
  intros Hact He.
  destruct (getFeatures_fields env w) as (Ht & _ & Hu & _ & _ & _ & Hm).
  specialize (Hm e He).
  rewrite fire_cases, Hact.
  destruct (getFeatures env w) as [[[]|e'] w1]; cbn in *; [discriminate|].
  injection He as ->. rewrite Hm, Ht, Hu. repeat split.
Qed.

Lemma rejected_poll_keeps_cache_witness :
  manager (snd (fire Scenario.offline 1%positive Scenario.polling))
    = manager Scenario.polling
  /\ unhandled (snd (fire Scenario.offline 1%positive Scenario.polling))
     = [Js.TypeError "Failed to fetch"].
Proof.
  pose proof (rejected_poll_keeps_cache Scenario.offline Scenario.polling
                1%positive (Js.TypeError "Failed to fetch") eq_refl eq_refl)
    as (_ & H1 & _ & H2).
  exact (conj H1 H2).
Defined.

(** ** Queries against the cache *)

(** X10. A query for a name the cache holds with a truthy entry is purely
    local: whether it answers or throws, it issues no request, triggers no
    creation and leaves the world exactly as it was. *)
Theorem isEnabled_cached_is_local (env : Env) (w : World)
    (featureName : string) (entry : Js.value) :
  declaredFeatures (manager w) !! featureName = Some entry ->
  Js.truthy entry = true ->
  snd (isEnabled env featureName w) = w
  /\ issued (isEnabled env featureName) w = [].
Proof.
  intros Hentry Htruthy.
  assert (Hw : snd (isEnabled env featureName w) = w).
  { rewrite isEnabled_run. cbn zeta. unfold Js.get_field.
    rewrite Hentry, Htruthy.
    destruct (Js.get_prop entry "meta") as [e|meta]; [reflexivity|].
    destruct (Js.get_prop meta "enabled"); reflexivity. }
  split; [exact Hw|]. apply issued_same. now rewrite Hw.
Qed.

Lemma isEnabled_cached_is_local_witness :
  snd (isEnabled Scenario.offline "featureA" Scenario.polling)
  = Scenario.polling.
Proof.
  exact (proj1 (isEnabled_cached_is_local Scenario.offline Scenario.polling
                  "featureA" (Scenario.served_feature true)
                  eq_refl eq_refl)).
Defined.

(** X11. For an entry that has a [meta] object, the answer is the [enabled]
    member of that object as it is stored, with no coercion to a boolean:
    [undefined] when [meta] has no [enabled]. *)
Theorem isEnabled_answers_meta_enabled (env : Env) (w : World)
    (featureName : string) (entry meta : gmap string Js.value) :
  declaredFeatures (manager w) !! featureName = Some (Js.Obj entry) ->
  entry !! "meta" = Some (Js.Obj meta) ->
  isEnabled env featureName w
    = (Returns (default Js.Undefined (meta !! "enabled")), w).
Proof.
  intros Hentry Hmeta. rewrite isEnabled_run. cbn zeta.
  unfold Js.get_field. rewrite Hentry. cbn.
  unfold Js.get_field. rewrite Hmeta. cbn.
  unfold Js.get_field. destruct (meta !! "enabled"); reflexivity.
Qed.

Lemma isEnabled_answers_meta_enabled_witness :
  isEnabled Scenario.online "flag" Scenario.flagged
  = (Returns (Js.Bool true), Scenario.flagged).
Proof.
  exact (isEnabled_answers_meta_enabled Scenario.online Scenario.flagged
           "flag"
           (<["options" := Js.Obj {["times" := Js.Arr []]}]>
              {["meta" := Js.Obj {["enabled" := Js.Bool true]}]})
           {["enabled" := Js.Bool true]} eq_refl eq_refl).
Defined.

(** X12. A name the cache holds with a falsy entry ([null], [false], [0],
    the empty string) is handled as a name it does not hold: [isEnabled]
    answers [false] and [declareFeature] returns, each after calling the
    create operation once. *)
Theorem falsy_entry_counts_as_unknown (env : Env) (w : World)
    (featureName : string) (o : IDeclareFeatureOptions) (entry : Js.value) :
  declaredFeatures (manager w) !! featureName = Some entry ->
  Js.truthy entry = false ->
  isEnabled env featureName w
    = (Returns (Js.Bool false),
       snd (detach (createFeature env featureName {| times := [] |}) w))
  /\ declareFeature env featureName o w
     = detach (createFeature env featureName o) w
  /\ issued (declareFeature env featureName o) w
     = issued (createFeature env featureName o) w.
Proof.
  intros Hentry Hfalsy.
  assert (Hd : declareFeature env featureName o w
               = detach (createFeature env featureName o) w).
  { rewrite declareFeature_run. unfold Js.get_field.
    now rewrite Hentry, Hfalsy. }
  split; [|split; [exact Hd|]].
  - rewrite isEnabled_run. cbn zeta. unfold Js.get_field.
    now rewrite Hentry, Hfalsy.
  - unfold issued at 1. rewrite Hd.
    fold (issued (detach (createFeature env featureName o)) w).
    apply issued_detach.
Qed.

Lemma falsy_entry_counts_as_unknown_witness :
  issued (declareFeature Scenario.online "ghost" Scenario.no_times)
    Scenario.nulled
  = issued (createFeature Scenario.online "ghost" Scenario.no_times)
      Scenario.nulled.
Proof.
  pose proof (falsy_entry_counts_as_unknown Scenario.online Scenario.nulled
                "ghost" Scenario.no_times Js.Null eq_refl eq_refl)
    as (_ & _ & H).
  exact H.
Defined.

(** X13. After [destroy()] every feature reads as disabled: for any name
    that is not a member every object inherits, [isEnabled] answers
    [false], whatever the cache held before. *)
Theorem destroyed_manager_answers_false (env : Env) (w : World)
    (featureName : string) :
  Js.inherited featureName = false ->
  fst (isEnabled env featureName (snd (destroy w))) = Returns (Js.Bool false).
Proof.
  intros Hown. rewrite destroy_run. cbn [snd].
  assert (Hnone : declaredFeatures
                    (manager
                       (with_manager
                          (set_declaredFeatures ∅
                             (set_inited false (manager w)))
                          (with_timers
                             (match interval (manager w) with
                              | Some h =>
                                  List.filter
                                    (fun t =>
                                       negb (Pos.eqb (timer_handle t) h))
                                    (timers w)
                              | None => timers w
                              end) w))) !! featureName = None)
    by apply lookup_empty.
  destruct (isEnabled_absent env _ featureName Hnone Hown) as [-> _].
  reflexivity.
Qed.

Lemma destroyed_manager_answers_false_witness :
  fst (isEnabled Scenario.online "flag" (snd (destroy Scenario.flagged)))
  = Returns (Js.Bool false).
Proof.
  exact (destroyed_manager_answers_false Scenario.online Scenario.flagged
           "flag" eq_refl).
Defined.

(** ** Histories *)

Lemma declareFeature_next_handle (env : Env) (featureName : string)
    (o : IDeclareFeatureOptions) (w : World) :
  next_handle (snd (declareFeature env featureName o w)) = next_handle w.
Proof.
  rewrite declareFeature_run. destruct (Js.truthy _); [reflexivity|].
  destruct (createFeature_unhandled env featureName o w) as [_ Hn].
  unfold detach.
  destruct (createFeature env featureName o w) as [[v|e] w1]; exact Hn.
Qed.

Lemma isEnabled_next_handle (env : Env) (featureName : string) (w : World) :
  next_handle (snd (isEnabled env featureName w)) = next_handle w.
Proof.
  rewrite isEnabled_run. cbn zeta. destruct (Js.truthy _).
  - destruct (Js.get_prop _ "meta") as [e|meta]; [reflexivity|].
    destruct (Js.get_prop meta "enabled"); reflexivity.
  - cbn [snd].
    destruct (createFeature_unhandled env featureName {| times := [] |} w)
      as [_ Hn].
    unfold detach.
    destruct (createFeature env featureName {| times := [] |} w)
      as [[v|e] w1]; exact Hn.
Qed.

Lemma fire_fields (env : Env) (h : handle) (w : World) :
  timers (snd (fire env h w)) = timers w
  /\ next_handle (snd (fire env h w)) = next_handle w
  /\ inited (manager (snd (fire env h w))) = inited (manager w)
  /\ interval (manager (snd (fire env h w))) = interval (manager w)
  /\ options (manager (snd (fire env h w))) = options (manager w).
Proof.
  rewrite fire_cases.
  destruct (getFeatures_fields env w) as (Ht & Hn & _ & Hi & Hv & Ho & _).
  destruct (active h w); [|repeat split].
  destruct (getFeatures env w) as [[[]|e] w1]; cbn in *; repeat split; auto.
Qed.

(** Every call leaves the configuration alone. *)
Lemma perform_options (c : call) (w : World) :
  options (manager (perform c w)) = options (manager w).
Proof.
  destruct c as [env| |env n o|env n|env n o|env|env h]; cbn [perform].
  - rewrite init_cases.
    destruct (getFeatures_fields env w) as (_ & _ & _ & _ & _ & Ho & _).
    destruct (getFeatures env w) as [[[]|e] w1]; exact Ho.
  - now rewrite destroy_run.
  - now destruct (declareFeature_frame env n o w) as (_ & -> & _).
  - now destruct (isEnabled_frame env n w) as [-> _].
  - now destruct (createFeature_frame env n o w) as [-> _].
  - apply getFeatures_fields.
  - apply fire_fields.
Qed.

Lemma run_options (history : list call) (w : World) :
  options (manager (run history w)) = options (manager w).
Proof.
  revert w. induction history as [|c rest IH]; intros w; [reflexivity|].
  cbn [run]. rewrite IH. apply perform_options.
Qed.

(** X14. The configuration is immutable: after any history of calls and
    elapsed periods the options of a manager are the merge of the defaults
    with what it was constructed with, no key having been changed, added
    or dropped. *)
Theorem options_never_change (opts : IManagerOptions) (history : list call) :
  options (manager (run history (new_world opts))) = merge_options opts
  /\ publicKey (options (manager (run history (new_world opts))))
     = match opts_publicKey opts with
       | Omitted => None
       | Given v => v
       end
  /\ privateKey (options (manager (run history (new_world opts))))
     = match opts_privateKey opts with
       | Omitted => None
       | Given v => v
       end.
Proof. rewrite run_options. repeat split. Qed.

Lemma consistent_agree (w w' : World) :
  timers w' = timers w ->
  next_handle w' = next_handle w ->
  inited (manager w') = inited (manager w) ->
  interval (manager w') = interval (manager w) ->
  options (manager w') = options (manager w) ->
  consistent w -> consistent w'.
Proof.
  unfold consistent. intros -> -> -> -> ->. exact id.
Qed.

Lemma getFeatures_returns_configured (env : Env) (w : World) :
  fst (getFeatures env w) = Returns tt ->
  Js.configured (publicKey (options (manager w))) = true.
Proof.
  rewrite getFeatures_run. cbn zeta.
  destruct (Js.configured _); [reflexivity|discriminate].
Qed.

Lemma consistent_start_polling (w : World) :
  Js.configured (publicKey (options (manager w))) = true ->
  consistent w -> consistent (start_polling w).
Proof.
  intros Hpk (Hts & Hnd & Hh & _). unfold consistent, start_polling. cbn.
  repeat split.
  - apply Forall_app. split.
    + eapply Forall_impl; [exact Hts|]. cbn. intros t [Hp Hlt].
      split; [exact Hp|]. lia.
    + constructor; [|constructor]. cbn. split; [reflexivity|lia].
  - rewrite map_app. cbn. apply NoDup_app. split; [exact Hnd|]. split.
    + intros x Hx Hx'. apply list_elem_of_In in Hx.
      apply list_elem_of_In in Hx'. destruct Hx' as [<-|[]].
      apply in_map_iff in Hx as (t & Ht & Hin).
      rewrite Forall_forall in Hts.
      apply list_elem_of_In in Hin. destruct (Hts t Hin) as [_ Hlt]. lia.
    + apply NoDup_singleton.
  - intros h [= <-]. lia.
  - exact Hpk.
  - discriminate.
Qed.

Lemma consistent_destroy (w : World) : consistent w -> consistent (snd (destroy w)).
Proof.
  intros (Hts & Hnd & Hh & _). rewrite destroy_run.
  unfold consistent. cbn. repeat split; try discriminate; try exact Hh.
  - destruct (interval (manager w)); [|exact Hts].
    rewrite Forall_forall in *. intros t Ht.
    apply list_elem_of_In, filter_In in Ht as [Ht _].
    apply Hts. now apply list_elem_of_In.
  - destruct (interval (manager w)) as [h|]; [|exact Hnd].
    clear Hts Hh. induction (timers w) as [|t ts IH]; [constructor|].
    cbn in *. apply NoDup_cons in Hnd as [Hnotin Hnd].
    destruct (negb (Pos.eqb (timer_handle t) h)); [|now apply IH].
    cbn. apply NoDup_cons. split; [|now apply IH].
    intros Hin. apply Hnotin.
    apply list_elem_of_In in Hin. apply list_elem_of_In.
    apply in_map_iff in Hin as (t' & Heq & Hin).
    apply filter_In in Hin as [Hin _]. apply in_map_iff. eauto.
Qed.

Lemma consistent_perform (c : call) (w : World) :
  consistent w -> consistent (perform c w).
Proof.
  intros Hw. destruct c as [env| |env n o|env n|env n o|env|env h];
    cbn [perform].
  - rewrite init_cases.
    pose proof (getFeatures_returns_configured env w) as Hpk.
    destruct (getFeatures_fields env w) as (Ht & Hn & _ & Hi & Hv & Ho & _).
    destruct (getFeatures env w) as [[[]|e] w1]; cbn in *.
    + apply consistent_start_polling.
      * rewrite Ho. now apply Hpk.
      * now apply (consistent_agree w).
    + now apply (consistent_agree w).
  - now apply consistent_destroy.
  - destruct (declareFeature_frame env n o w) as (_ & Hm & Ht).
    apply (consistent_agree w); try now rewrite Hm.
    + exact Ht.
    + apply declareFeature_next_handle.
    + exact Hw.
  - destruct (isEnabled_frame env n w) as [Hm Ht].
    apply (consistent_agree w); try now rewrite Hm.
    + exact Ht.
    + apply isEnabled_next_handle.
    + exact Hw.
  - destruct (createFeature_frame env n o w) as [Hm Ht].
    apply (consistent_agree w); try now rewrite Hm.
    + exact Ht.
    + apply createFeature_unhandled.
    + exact Hw.
  - destruct (getFeatures_fields env w) as (Ht & Hn & _ & Hi & Hv & Ho & _).
    now apply (consistent_agree w).
  - destruct (fire_fields env h w) as (Ht & Hn & Hi & Hv & Ho).
    now apply (consistent_agree w).
Qed.

Lemma consistent_run (history : list call) (w : World) :
  consistent w -> consistent (run history w).
Proof.
  revert w. induction history as [|c rest IH]; intros w Hw; [exact Hw|].
  cbn [run]. apply IH. now apply consistent_perform.
Qed.

Lemma consistent_new_world (opts : IManagerOptions) :
  consistent (new_world opts).
Proof.
  unfold consistent, new_world. cbn. repeat split; try discriminate.
  - constructor.
  - constructor.
Qed.

(** X15. Whatever the history of a manager, its active intervals all have
    the period of 10 000 ms and pairwise distinct handles: [setInterval]
    is only ever called by [init()], and a second [init()] adds an interval
    beside the first. *)
Theorem intervals_of_any_history (opts : IManagerOptions)
    (history : list call) :
  Forall (fun t => timer_period t = 10000%N)
    (timers (run history (new_world opts)))
  /\ NoDup (map timer_handle (timers (run history (new_world opts)))).
Proof.
  destruct (consistent_run history _ (consistent_new_world opts))
    as (Hts & Hnd & _).
  split; [|exact Hnd].
  eapply Forall_impl; [exact Hts|]. cbn. now intros t [Hp _].
Qed.

(** X16. Whatever the history of a manager, [inited] is set only if a
    public key is configured and the manager holds the handle of an
    interval: the configuration error cannot come up in a manager that
    reports itself initialised. *)
Theorem inited_only_when_configured (opts : IManagerOptions)
    (history : list call) :
  inited (manager (run history (new_world opts))) = true ->
  Js.configured (publicKey (merge_options opts)) = true
  /\ interval (manager (run history (new_world opts))) <> None.
Proof.
  intros Hin.
  destruct (consistent_run history _ (consistent_new_world opts))
    as (_ & _ & _ & He).
  destruct (He Hin) as [Hpk Hv]. split; [|exact Hv].
  now rewrite run_options in Hpk.
Qed.

Lemma inited_only_when_configured_witness :
  Js.configured (publicKey (merge_options Scenario.full)) = true
  /\ interval (manager (run [Init Scenario.online; IsEnabled Scenario.online
                                                    "featureB"]
                          (new_world Scenario.full))) <> None.
Proof.
  exact (inited_only_when_configured Scenario.full
           [Init Scenario.online; IsEnabled Scenario.online "featureB"]
           eq_refl).
Defined.

(** *** What a manager sends *)

Lemma perform_requests (c : call) (w : World) :
  exists l : list Request,
    requests (perform c w) = (requests w ++ l)%list
    /\ Forall (request_of (options (manager w))) l
    /\ (length l <= 1)%nat.
Proof.
  assert (Hget : forall env, exists l : list Request,
             requests (snd (getFeatures env w)) = (requests w ++ l)%list
             /\ Forall (request_of (options (manager w))) l
             /\ (length l <= 1)%nat).
  { intros env. exists (issued (getFeatures env) w).
    split; [apply requests_getFeatures|].
    rewrite issued_getFeatures. cbn zeta.
    destruct (Js.configured _); [|split; [constructor|cbn; lia]].
    destruct (origin env) as [og|]; [|split; [constructor|cbn; lia]].
    split; [|cbn; lia]. constructor; [|constructor]. left. now exists og. }
  assert (Hcreate : forall env n o, exists l : list Request,
             requests (snd (createFeature env n o w)) = (requests w ++ l)%list
             /\ Forall (request_of (options (manager w))) l
             /\ (length l <= 1)%nat).
  { intros env n o. eexists. split; [apply requests_createFeature|].
    destruct (Js.configured _); [|split; [constructor|cbn; lia]].
    split; [|cbn; lia]. constructor; [|constructor]. right. now exists n, o. }
  assert (Hnone : exists l : list Request,
             requests w = (requests w ++ l)%list
             /\ Forall (request_of (options (manager w))) l
             /\ (length l <= 1)%nat).
  { exists []. rewrite app_nil_r. repeat split; [constructor|cbn; lia]. }
  destruct c as [env| |env n o|env n|env n o|env|env h]; cbn [perform].
  - rewrite init_cases. specialize (Hget env).
    destruct (getFeatures env w) as [[[]|e] w1]; exact Hget.
  - rewrite destroy_run. exact Hnone.
  - rewrite declareFeature_run. destruct (Js.truthy _); [exact Hnone|].
    destruct (detach_frame (createFeature env n o) w) as (_ & _ & _ & ->).
    apply Hcreate.
  - rewrite isEnabled_run. cbn zeta. destruct (Js.truthy _).
    + destruct (Js.get_prop _ "meta") as [e|meta]; [exact Hnone|].
      destruct (Js.get_prop meta "enabled"); exact Hnone.
    + cbn [snd].
      destruct (detach_frame (createFeature env n {| times := [] |}) w)
        as (_ & _ & _ & ->).
      apply Hcreate.
  - apply Hcreate.
  - apply Hget.
  - rewrite fire_cases. destruct (active h w); [|exact Hnone].
    specialize (Hget env).
    destruct (getFeatures env w) as [[[]|e] w1]; exact Hget.
Qed.


(** X18. No call and no elapsed period issues more than one request: after
    any history, the requests issued are at most as many as the calls and
    periods of the history. *)
Theorem at_most_one_request_per_call (history : list call) (w : World) :
  (length (requests (run history w))
   <= length (requests w) + length history)%nat.
Proof.
  revert w. induction history as [|c rest IH]; intros w; cbn [run length].
  - lia.
  - specialize (IH (perform c w)).
    destruct (perform_requests c w) as (l & Hl & _ & Hlen).
    rewrite Hl, length_app in IH. lia.
Qed.

(** X19. While a name stays unknown to the lookup and a private key is
    configured, each of [n] successive calls of [isEnabled] issues its own
    creation request, whatever the answers to the earlier ones were: the
    manager keeps no record of what it has asked to create. *)
Theorem repeated_queries_repeat_creation (env : Env) (w : World)
    (featureName key : string) (n : nat) :
  declaredFeatures (manager w) !! featureName = None ->
  Js.inherited featureName = false ->
  privateKey (options (manager w)) = Some key ->
  key <> "" ->
  requests (run (List.repeat (IsEnabled env featureName) n) w) =
    (requests w
       ++ List.repeat (create_request featureName key {| times := [] |}) n)%list.
Proof.
  intros Hnone Hown Hkey Hne. revert w Hnone Hkey.
  induction n as [|n IH]; intros w Hnone Hkey; cbn [List.repeat run].
  - now rewrite app_nil_r.
  - cbn [perform].
    destruct (isEnabled_frame env featureName w) as [Hm _].
    rewrite IH; rewrite ?Hm; auto.
    rewrite (requests_isEnabled_absent env w featureName Hnone Hown).
    rewrite Hkey, (configured_Some key Hne). cbn [from_option_string].
    now rewrite <- app_assoc.
Qed.

Lemma repeated_queries_repeat_creation_witness :
  requests (run (List.repeat (IsEnabled Scenario.online "featureB") 3)
              (new_world Scenario.full))
  = List.repeat (create_request "featureB" "test-private-key"
                   Scenario.no_times) 3.
Proof.
  exact (repeated_queries_repeat_creation Scenario.online
           (new_world Scenario.full) "featureB" "test-private-key" 3
           eq_refl eq_refl eq_refl ltac:(discriminate)).
Defined.

(** ** [init()] and [destroy()] together *)


(** X20. A second [init()] does not replace the interval of the first: when
    both resolve, both intervals are active afterwards, and the manager
    holds the handle of the second only. *)
Theorem second_init_adds_an_interval (env1 env2 : Env) (w : World) :
  fst (init env1 w) = Returns tt ->
  fst (init env2 (snd (init env1 w))) = Returns tt ->
  active (next_handle w) (snd (init env2 (snd (init env1 w)))) = true
  /\ active (Pos.succ (next_handle w)) (snd (init env2 (snd (init env1 w))))
     = true
  /\ interval (manager (snd (init env2 (snd (init env1 w)))))
     = Some (Pos.succ (next_handle w)).
Proof.
  rewrite (init_cases env1 w).
  destruct (getFeatures_fields env1 w) as (Ht & Hn & _).
  destruct (getFeatures env1 w) as [[[]|e] w1]; cbn [fst snd] in *;
    [|discriminate].
  intros _. rewrite (init_cases env2 (start_polling w1)).
  destruct (getFeatures_fields env2 (start_polling w1)) as (Ht2 & Hn2 & _).
  destruct (getFeatures env2 (start_polling w1)) as [[[]|e] w2];
    cbn [fst snd] in *; [|discriminate].
  intros _. unfold active. cbn [start_polling with_manager timers manager
                                  interval set_inited set_interval].
  rewrite Ht2, Hn2. cbn [start_polling with_manager timers next_handle].
  rewrite Hn. repeat split.
  - rewrite !existsb_app. cbn. rewrite Pos.eqb_refl.
    now rewrite !orb_true_r.
  - rewrite !existsb_app. cbn. rewrite Pos.eqb_refl.
    now rewrite !orb_true_r.
Qed.

Lemma second_init_adds_an_interval_witness :
  active 1%positive
    (snd (init Scenario.online (snd (init Scenario.online
                                       (new_world Scenario.full))))) = true
  /\ interval
       (manager
          (snd (init Scenario.online (snd (init Scenario.online
                                             (new_world Scenario.full))))))
     = Some 2%positive.
Proof.
  pose proof (second_init_adds_an_interval Scenario.online Scenario.online
                (new_world Scenario.full) eq_refl eq_refl) as (H1 & _ & H3).
  exact (conj H1 H3).
Defined.



(** ** The public key in the read URL *)

Lemma chars_app (s t : string) : chars (s ++ t) = (chars s ++ chars t)%list.
Proof.
  induction s as [|c s IH]; [reflexivity|].
  change (c :: chars (s ++ t) = c :: (chars s ++ chars t)%list).
  now rewrite IH.
Qed.

Lemma encode_byte_check (c : ascii) :
  forallb (fun d => Js.unreserved d || Ascii.eqb d "+" || Ascii.eqb d "%")
    (chars (Js.encode_byte c)) = true.
Proof. destruct c as [[] [] [] [] [] [] [] []]; vm_compute; reflexivity. Qed.

Lemma encode_byte_safe (c : ascii) :
  Forall (fun d => Js.unreserved d = true \/ d = "+"%char \/ d = "%"%char)
    (chars (Js.encode_byte c)).
Proof.
  pose proof (encode_byte_check c) as Hc.
  rewrite forallb_forall in Hc. apply Forall_forall. intros d Hd.
  apply list_elem_of_In in Hd. specialize (Hc d Hd).
  apply orb_true_iff in Hc as [Hc|Hc].
  - apply orb_true_iff in Hc as [Hc|Hc]; [now left|].
    right. left. now apply Ascii.eqb_eq.
  - right. right. now apply Ascii.eqb_eq.
Qed.

(** X22. However the public key is spelt, its serialization in the read
    URL consists of letters, digits, [*-._], [+] and [%] only: no [&], [=],
    [#] or space of the key reaches the query, so a key cannot add a
    parameter or a fragment of its own. *)
Theorem public_key_cannot_break_the_query (pk : string) :
  Forall (fun d => Js.unreserved d = true \/ d = "+"%char \/ d = "%"%char)
    (chars (Js.form_urlencode pk))
  /\ ~ In "&"%char (chars (Js.form_urlencode pk))
  /\ ~ In "="%char (chars (Js.form_urlencode pk))
  /\ ~ In "#"%char (chars (Js.form_urlencode pk))
  /\ ~ In " "%char (chars (Js.form_urlencode pk)).
Proof.
  assert (Hsafe : Forall (fun d => Js.unreserved d = true
                                   \/ d = "+"%char \/ d = "%"%char)
                    (chars (Js.form_urlencode pk))).
  { induction pk as [|c pk IH]; [constructor|].
    cbn [Js.form_urlencode]. rewrite chars_app. apply Forall_app.
    split; [apply encode_byte_safe|exact IH]. }
  split; [exact Hsafe|].
  rewrite Forall_forall in Hsafe.
  repeat split; intros Hin; apply list_elem_of_In in Hin;
    destruct (Hsafe _ Hin) as [H|[H|H]]; discriminate H.
Qed.

(** X23. A public key made of letters, digits and [*-._] only appears in
    the read URL exactly as configured. *)
Theorem plain_public_key_is_sent_verbatim (o pk : string) :
  forallb Js.unreserved (chars pk) = true ->
  Js.form_urlencode pk = pk
  /\ url (read_request o pk) = o ++ "/v1/sdk/feature/?publicKey=" ++ pk.
Proof.
  intros Hplain.
  assert (Hid : Js.form_urlencode pk = pk).
  { induction pk as [|c pk IH]; [reflexivity|].
    cbn [chars forallb] in Hplain.
    apply andb_true_iff in Hplain as [Hc Hrest].
    cbn [Js.form_urlencode]. unfold Js.encode_byte. rewrite Hc.
    cbn [String.append]. now rewrite (IH Hrest). }
  split; [exact Hid|]. cbn [url read_request]. now rewrite Hid.
Qed.

Lemma plain_public_key_is_sent_verbatim_witness :
  url (read_request "https://test.origin" "test-public-key")
  = "https://test.origin/v1/sdk/feature/?publicKey=test-public-key".
Proof.
  exact (proj2 (plain_public_key_is_sent_verbatim "https://test.origin"
                  "test-public-key" eq_refl)).
Defined.
